(** * healthcheck: the gRPC-aware health handler and the gRPC check

    A shallow embedding of [checks/grpc.go] and [handlers/grpc_handler.go].

    Conventions of the embedding:
    - a Go [error] is an [option string]: [None] is [nil], [Some msg] is an
      error whose [Error()] text is [msg];
    - a Go [map[string]T] is a [gmap string T]; reading a missing key gives
      the zero value of [T], see [index_err] and [index_bool];
    - [grpc_health_v1.HealthCheckResponse_ServingStatus] is an [int32],
      kept as a [Z];
    - every critical section together with the status update that follows it
      is one atomic step; the scheduler and the network are the environment
      and appear as the arguments of the step functions. *)

From stdpp Require Import gmap strings list fin_maps pretty.
From Stdlib Require Import ZArith.

Local Open Scope Z_scope.

Abbreviation error := (option string).

(** Go's nil-pointer dereference and the like: a computation either returns
    a value or panics. *)
Inductive Outcome (A : Type) : Type :=
| Ret (a : A)
| Panic.
Arguments Ret {A} a.
Arguments Panic {A}.

(** ** google.golang.org/grpc/health/grpc_health_v1 (the parts used) *)
Module grpc_health_v1.

Definition UNKNOWN : Z := 0.
Definition SERVING : Z := 1.
Definition NOT_SERVING : Z := 2.
Definition SERVICE_UNKNOWN : Z := 3.

(** [HealthCheckResponse_ServingStatus_name]; a missing key reads as the
    empty string. *)
Definition ServingStatus_name (st : Z) : string :=
  if st =? 0 then "UNKNOWN"
  else if st =? 1 then "SERVING"
  else if st =? 2 then "NOT_SERVING"
  else if st =? 3 then "SERVICE_UNKNOWN"
  else "".

Record HealthCheckResponse : Type := { Status : Z }.

(** What [stream.Recv()] can hand back as its error. [io.EOF] is compared
    by identity in the source, so it is a constructor of its own. *)
Inductive RecvError : Type :=
| io_EOF
| RecvFailed (msg : string).

(** One result of [stream.Recv()]: the response pointer (maybe nil) and the
    error (maybe nil). *)
Definition RecvResult : Type :=
  (option HealthCheckResponse * option RecvError)%type.

(** The client interface. [Check] receives the deadline of its context (in
    nanoseconds, as [time.Duration]); [Watch] is given by its error. *)
Record HealthClient : Type := {
  Check : Z → option HealthCheckResponse * error;
  Watch : error
}.

End grpc_health_v1.

(** ** google.golang.org/grpc/health: the serving status actuator *)
Module health.

(** [statusMap] is the server's table; [setCalls] records every call of
    [SetServingStatus], most recent first, so that "the flag was not
    touched" can be stated. *)
Record Server : Type := {
  statusMap : gmap string Z;
  setCalls : list (string * Z)
}.

Definition SetServingStatus (service : string) (st : Z) (hs : Server) : Server :=
  {| statusMap := <[service := st]> (statusMap hs);
     setCalls := (service, st) :: setCalls hs |}.

(** [health.NewServer()]: the overall service starts as SERVING. *)
Definition NewServer : Server :=
  {| statusMap := {[ "" := grpc_health_v1.SERVING ]}; setCalls := [] |}.

End health.

(** ** package checks *)
Module checks.
Import grpc_health_v1.

Definition Second : Z := 1000000000.

(** [errors.Wrap(err, msg)] of github.com/pkg/errors, on a non-nil error. *)
Definition Wrap (err : string) (msg : string) : error :=
  Some (msg +:+ ": " +:+ err).

(** The function returned by [CheckGRPC(grpcClient)], run once. *)
Definition CheckGRPC (grpcClient : HealthClient) : Outcome error :=
  let '(resp, err) := Check grpcClient (1 * Second) in
  match err with
  | Some e => Ret (Wrap e "gRPC healthcheck failed")
  | None =>
      match resp with
      | None => Panic
      | Some r =>
          if negb (Status r =? SERVING)
          then Ret (Some ("gRPC healthcheck failed, bad status: "
                          +:+ ServingStatus_name (Status r)))
          else Ret None
      end
  end.

(** *** checks/db.go *)

(** [sql.Result], as far as the check reads it: what [RowsAffected()]
    returns, an [int64] and an error. *)
Record Result : Type := { RowsAffected : Z * error }.

(** A non-nil [*sql.DB]. Both methods receive the deadline of their context
    as a [time.Duration]; [ExecContext] also the query text, and returns
    the result (an interface, maybe nil) and the error. *)
Record DB : Type := {
  PingContext : Z → error;
  ExecContext : Z → string → option Result * error
}.

(** The function returned by [DatabasePingCheck(database, timeout)], run
    once; [None] is the nil pointer the source tests for. *)
Definition DatabasePingCheck (database : option DB) (timeout : Z) : error :=
  match database with
  | None => Some "database is nil"
  | Some db => PingContext db timeout
  end.

(** The function returned by [DatabaseSelectCheck(client, timeout)], run
    once. The source does not test [client] for nil, so it is taken
    non-nil here. *)
Definition DatabaseSelectCheck (client : DB) (timeout : Z) : Outcome error :=
  let '(res, err) := ExecContext client timeout "SELECT 1" in
  match err with
  | Some e => Ret (Wrap e "SQL healthcheck failed for SELECT 1")
  | None =>
      match res with
      | None => Panic
      | Some res =>
          let '(rows, err) := RowsAffected res in
          match err with
          | Some e => Ret (Wrap e "SQL healthcheck failed, rows affected error")
          | None =>
              if negb (rows =? 1)
              then Ret (Some ("SQL healthcheck failed, incorrect DB result (expected 1 row, got "
                              +:+ pretty rows +:+ ")"))
              else Ret None
          end
      end
  end.

(** *** The Redis check *)

(** [redis.Cmdable], as far as the check uses it: the error of
    [client.Ping().Err()]. *)
Record Cmdable : Type := { Ping : error }.

(** The function returned by [CheckRedis(client)], run once. *)
Definition CheckRedis (client : Cmdable) : error :=
  let err := Ping client in
  match err with
  | Some e => Wrap e "Redis healthcheck failed"
  | None => err
  end.

End checks.


(** ** package handlers *)
Module handlers.
Import grpc_health_v1 health.

(** The mutable fields of [grpcHandler]. The mutexes, the logger and the
    global context carry no state of their own in a sequential model. *)
Record grpcHandler : Type := {
  readinessChecks : gmap string error;
  livenessChecks : gmap string error;
  grpcHealthServer : Server;
  grpcDeps : gmap string bool
}.

(** [m[name]] on a [map[string]error] and on a [map[string]bool]. *)
Definition index_err (m : gmap string error) (name : string) : error :=
  default None (m !! name).
Definition index_bool (m : gmap string bool) (name : string) : bool :=
  default false (m !! name).

Definition set_readinessChecks (m : gmap string error) (s : grpcHandler) : grpcHandler :=
  {| readinessChecks := m; livenessChecks := livenessChecks s;
     grpcHealthServer := grpcHealthServer s; grpcDeps := grpcDeps s |}.
Definition set_livenessChecks (m : gmap string error) (s : grpcHandler) : grpcHandler :=
  {| readinessChecks := readinessChecks s; livenessChecks := m;
     grpcHealthServer := grpcHealthServer s; grpcDeps := grpcDeps s |}.
Definition set_grpcDeps (m : gmap string bool) (s : grpcHandler) : grpcHandler :=
  {| readinessChecks := readinessChecks s; livenessChecks := livenessChecks s;
     grpcHealthServer := grpcHealthServer s; grpcDeps := m |}.

(** [s.grpcHealthServer.SetServingStatus("", st)] *)
Definition setServing (st : Z) (s : grpcHandler) : grpcHandler :=
  {| readinessChecks := readinessChecks s; livenessChecks := livenessChecks s;
     grpcHealthServer := SetServingStatus "" st (grpcHealthServer s);
     grpcDeps := grpcDeps s |}.

(** The externally visible flag: the health server's entry for [""]. *)
Definition servingStatus (s : grpcHandler) : Z :=
  default SERVICE_UNKNOWN (statusMap (grpcHealthServer s) !! "").

Definition NewGrpcHandler (hs : Server) : grpcHandler :=
  {| readinessChecks := ∅; livenessChecks := ∅;
     grpcHealthServer := SetServingStatus "" NOT_SERVING hs;
     grpcDeps := ∅ |}.

(** A [for _, checkResult := range m] loop that clears [ok] on the first
    non-nil result. *)
Definition allNil (m : gmap string error) : bool :=
  map_fold (λ _ checkResult ok,
              match checkResult with Some _ => false | None => ok end) true m.

Definition areChecksOk (s : grpcHandler) : bool :=
  if negb (allNil (readinessChecks s)) then false
  else if negb (allNil (livenessChecks s)) then false
  else true.

Definition areGrpcDepsOk (s : grpcHandler) : bool :=
  map_fold (λ _ (checkResult : bool) ok, if negb checkResult then false else ok)
           true (grpcDeps s).

(** The body shared by [readinessOkWithResults] and
    [livenessOkWithResults]: it writes one entry per check into [results]
    and reports whether all of them were nil. *)
Definition okWithResults (m : gmap string error) (results : gmap string string)
  : bool * gmap string string :=
  map_fold (λ name checkResult (acc : bool * gmap string string),
              match checkResult with
              | Some msg => (false, <[name := msg]> acc.2)
              | None => (acc.1, <[name := "OK"]> acc.2)
              end) (true, results) m.

Definition readinessOkWithResults (s : grpcHandler) (results : gmap string string) :=
  okWithResults (readinessChecks s) results.

Definition livenessOkWithResults (s : grpcHandler) (results : gmap string string) :=
  okWithResults (livenessChecks s) results.

Definition grpcDepsOkWithResults (s : grpcHandler) (results : gmap string string)
  : bool * gmap string string :=
  map_fold (λ name (checkResult : bool) (acc : bool * gmap string string),
              if negb checkResult
              then (false, <[name := "grpc service is down"]> acc.2)
              else (acc.1, <[name := "OK"]> acc.2)) (true, results) (grpcDeps s).

(** *** Registration *)

Definition AddReadinessCheck (name : string) (s : grpcHandler) : error * grpcHandler :=
  match readinessChecks s !! name with
  | Some _ => (Some ("readiness check '" +:+ name +:+ "' already exists"), s)
  | None => (None, set_readinessChecks (<[name := Some "placeholder"]> (readinessChecks s)) s)
  end.

Definition AddLivenessCheck (name : string) (s : grpcHandler) : error * grpcHandler :=
  match livenessChecks s !! name with
  | Some _ => (Some ("liveness check '" +:+ name +:+ "' already exists"), s)
  | None => (None, set_livenessChecks (<[name := Some "placeholder"]> (livenessChecks s)) s)
  end.

(** The entry is written before [grpcClient.Watch] is tried, so it stays
    when [Watch] fails; the goroutine is started only when it succeeds. *)
Definition AddGrpcReadinessCheck (name : string) (grpcClient : HealthClient)
           (s : grpcHandler) : error * grpcHandler :=
  match grpcDeps s !! name with
  | Some _ => (Some ("grpc readiness check '" +:+ name +:+ "' already exists"), s)
  | None =>
      let s1 := set_grpcDeps (<[name := false]> (grpcDeps s)) s in
      match Watch grpcClient with
      | Some err => (Some err, s1)
      | None => (None, s1)
      end
  end.

(** *** The periodic callbacks *)

(** The closure [AddReadinessCheck] hands to [checks.AsyncWithContext], run
    once; [err] is what [check()] returned. *)
Definition AddReadinessCheck_func1 (name : string) (err : error) (s : grpcHandler)
  : grpcHandler :=
  match index_err (readinessChecks s) name, err with
  | None, Some _ =>
      let s1 := set_readinessChecks (<[name := err]> (readinessChecks s)) s in
      setServing NOT_SERVING s1
  | Some _, None =>
      let s1 := set_readinessChecks (<[name := err]> (readinessChecks s)) s in
      let ok := true in
      let ok := ok && areChecksOk s1 in
      let ok := ok && areGrpcDepsOk s1 in
      if ok then setServing SERVING s1 else s1
  | _, _ => s
  end.

Definition AddLivenessCheck_func1 (name : string) (err : error) (s : grpcHandler)
  : grpcHandler :=
  match index_err (livenessChecks s) name, err with
  | None, Some _ =>
      let s1 := set_livenessChecks (<[name := err]> (livenessChecks s)) s in
      setServing NOT_SERVING s1
  | Some _, None =>
      let s1 := set_livenessChecks (<[name := err]> (livenessChecks s)) s in
      let ok := true in
      let ok := ok && areChecksOk s1 in
      let ok := ok && areGrpcDepsOk s1 in
      if ok then setServing SERVING s1 else s1
  | _, _ => s
  end.

(** *** The watch goroutine *)

(** Where the goroutine stands: still in its loop, returned, or dead from
    a panic (which takes the process with it). *)
Inductive Flow : Type :=
| Running (s : grpcHandler)
| Returned (s : grpcHandler)
| Panicked (s : grpcHandler).

(** The second [switch] of the loop body; [resp.Status] is read first, so
    a nil [resp] panics. *)
Definition watchUpdate (name : string) (resp : option HealthCheckResponse)
           (s : grpcHandler) : Flow :=
  match resp with
  | None => Panicked s
  | Some r =>
      if (Status r =? SERVING) && negb (index_bool (grpcDeps s) name) then
        let s1 := set_grpcDeps (<[name := true]> (grpcDeps s)) s in
        let ok := true in
        let ok := ok && areGrpcDepsOk s1 in
        let ok := ok && areChecksOk s1 in
        if negb ok then Running s1
        else Running (setServing SERVING s1)
      else if (Status r =? NOT_SERVING) && index_bool (grpcDeps s) name then
        let s1 := set_grpcDeps (<[name := false]> (grpcDeps s)) s in
        Running (setServing NOT_SERVING s1)
      else Running s
  end.

(** One turn of the [for] loop on one result of [stream.Recv()]. In the
    first [switch] the [break] of the [io.EOF] case leaves the [switch],
    not the loop, and control falls to the second [switch]. *)
Definition watchIter (name : string) (r : RecvResult) (s : grpcHandler) : Flow :=
  let '(resp, err) := r in
  match err with
  | Some io_EOF => watchUpdate name resp s
  | Some (RecvFailed _) => Returned s
  | None => watchUpdate name resp s
  end.

(** The goroutine of [AddGrpcReadinessCheck] over the results that
    [stream.Recv()] delivers, in order. When they are used up the
    goroutine is waiting in [Recv]: [Running]. *)
Fixpoint AddGrpcReadinessCheck_func1 (name : string) (recvs : list RecvResult)
         (s : grpcHandler) : Flow :=
  match recvs with
  | [] => Running s
  | r :: recvs' =>
      match watchIter name r s with
      | Running s' => AddGrpcReadinessCheck_func1 name recvs' s'
      | stopped => stopped
      end
  end.

(** *** The HTTP endpoints *)

(** What the handlers read of an [*http.Request]: the method and the
    query pairs in the order of the URL. *)
Record Request : Type := {
  Method : string;
  Query : list (string * string)
}.

(** [r.URL.Query().Get(key)]: the first value of [key], or the empty
    string. *)
Fixpoint Get (q : list (string * string)) (key : string) : string :=
  match q with
  | [] => ""
  | (k, v) :: q' => if String.eqb k key then v else Get q' key
  end.

(** A body is either bytes written as they are, or the map handed to the
    JSON encoder (the encoder itself is not part of the model). *)
Inductive Body : Type :=
| Raw (bytes : string)
| Encoded (results : gmap string string).

Record Response : Type := {
  StatusCode : Z;
  ContentType : string;
  body : Body
}.

Definition LF : string := String (Ascii.ascii_of_nat 10) EmptyString.

Definition StatusOK : Z := 200.
Definition StatusMethodNotAllowed : Z := 405.
Definition StatusServiceUnavailable : Z := 503.

(** [http.Error(w, msg, code)] *)
Definition http_Error (msg : string) (code : Z) : Response :=
  {| StatusCode := code; ContentType := "text/plain; charset=utf-8";
     body := Raw (msg +:+ LF) |}.

(** [ok = ok && f(results)]: Go's [&&] does not call [f] once [ok] is
    false, so [results] is then left as it is. *)
Definition andAlso (acc : bool * gmap string string)
           (f : gmap string string → bool * gmap string string)
  : bool * gmap string string :=
  if acc.1 then f acc.2 else acc.

(** The tail common to both endpoints, from [w.Header().Set] on. *)
Definition writeResponse (r : Request) (status : Z) (results : gmap string string)
  : Response :=
  if negb (String.eqb (Get (Query r) "full") "1")
  then {| StatusCode := status; ContentType := "application/json; charset=utf-8";
          body := Raw ("{}" +:+ LF) |}
  else {| StatusCode := status; ContentType := "application/json; charset=utf-8";
          body := Encoded results |}.

Definition ReadyEndpoint (r : Request) (s : grpcHandler) : Response :=
  if negb (String.eqb (Method r) "GET")
  then http_Error "method not allowed" StatusMethodNotAllowed
  else
    let acc := (true, ∅) in
    let acc := andAlso acc (livenessOkWithResults s) in
    let acc := andAlso acc (readinessOkWithResults s) in
    let acc := andAlso acc (grpcDepsOkWithResults s) in
    let status := if negb acc.1 then StatusServiceUnavailable else StatusOK in
    writeResponse r status acc.2.

Definition LiveEndpoint (r : Request) (s : grpcHandler) : Response :=
  if negb (String.eqb (Method r) "GET")
  then http_Error "method not allowed" StatusMethodNotAllowed
  else
    let acc := (true, ∅) in
    let acc := andAlso acc (livenessOkWithResults s) in
    let status := if negb acc.1 then StatusServiceUnavailable else StatusOK in
    writeResponse r status acc.2.

(** *** The handler as a transition system *)

(** What can happen to a handler: the three registration calls, one run of
    a periodic callback, one turn of a watch goroutine. *)
Inductive Event : Type :=
| RegisterReadiness (name : string)
| RegisterLiveness (name : string)
| RegisterGrpc (name : string) (grpcClient : HealthClient)
| RunReadiness (name : string) (err : error)
| RunLiveness (name : string) (err : error)
| WatchRecv (name : string) (r : RecvResult).

(** A callback runs, and a watch goroutine receives, only for a name that
    was registered. *)
Definition enabled (ev : Event) (s : grpcHandler) : bool :=
  match ev with
  | RunReadiness name _ => bool_decide (is_Some (readinessChecks s !! name))
  | RunLiveness name _ => bool_decide (is_Some (livenessChecks s !! name))
  | WatchRecv name _ => bool_decide (is_Some (grpcDeps s !! name))
  | _ => true
  end.

Definition exec (ev : Event) (s : grpcHandler) : Outcome grpcHandler :=
  match ev with
  | RegisterReadiness name => Ret (AddReadinessCheck name s).2
  | RegisterLiveness name => Ret (AddLivenessCheck name s).2
  | RegisterGrpc name grpcClient => Ret (AddGrpcReadinessCheck name grpcClient s).2
  | RunReadiness name err => Ret (AddReadinessCheck_func1 name err s)
  | RunLiveness name err => Ret (AddLivenessCheck_func1 name err s)
  | WatchRecv name r =>
      match watchIter name r s with
      | Running s' | Returned s' => Ret s'
      | Panicked _ => Panic
      end
  end.

Fixpoint run (evs : list Event) (s : grpcHandler) : Outcome grpcHandler :=
  match evs with
  | [] => Ret s
  | ev :: evs' =>
      if enabled ev s then
        match exec ev s with
        | Ret s' => run evs' s'
        | Panic => Panic
        end
      else Panic
  end.

Inductive reachable : grpcHandler → Prop :=
| reachable_new hs : reachable (NewGrpcHandler hs)
| reachable_step s ev s' :
    reachable s → enabled ev s = true → exec ev s = Ret s' → reachable s'.

(** A named entry of one of the three result sets. *)
Inductive Slot : Type :=
| ReadinessSlot (name : string)
| LivenessSlot (name : string)
| GrpcSlot (name : string).

(** The entry exists and holds a failure (a non-nil error, a false flag). *)
Definition failed (k : Slot) (s : grpcHandler) : bool :=
  match k with
  | ReadinessSlot name =>
      match readinessChecks s !! name with Some (Some _) => true | _ => false end
  | LivenessSlot name =>
      match livenessChecks s !! name with Some (Some _) => true | _ => false end
  | GrpcSlot name =>
      match grpcDeps s !! name with Some false => true | _ => false end
  end.

(** The entry exists and holds a success. *)
Definition passed (k : Slot) (s : grpcHandler) : bool :=
  match k with
  | ReadinessSlot name =>
      match readinessChecks s !! name with Some None => true | _ => false end
  | LivenessSlot name =>
      match livenessChecks s !! name with Some None => true | _ => false end
  | GrpcSlot name =>
      match grpcDeps s !! name with Some true => true | _ => false end
  end.

(** The event is a run of the check, or a received watch event, of [k]. *)
Definition executes (ev : Event) (k : Slot) : bool :=
  match ev, k with
  | RunReadiness n _, ReadinessSlot name
  | RunLiveness n _, LivenessSlot name
  | WatchRecv n _, GrpcSlot name => String.eqb n name
  | _, _ => false
  end.

(** The event by which the entry [k] turns from failed to healthy. *)
Definition recovery (k : Slot) : Event :=
  match k with
  | ReadinessSlot name => RunReadiness name None
  | LivenessSlot name => RunLiveness name None
  | GrpcSlot name => WatchRecv name (Some {| Status := SERVING |}, None)
  end.

(** No result known to the handler is a failure. *)
Definition allHealthy (s : grpcHandler) : Prop :=
  (∀ name e, readinessChecks s !! name = Some e → e = None) ∧
  (∀ name e, livenessChecks s !! name = Some e → e = None) ∧
  (∀ name b, grpcDeps s !! name = Some b → b = true).

(** The registration call that owns the entry [k]. *)
Definition register (k : Slot) (grpcClient : HealthClient) (s : grpcHandler)
  : error * grpcHandler :=
  match k with
  | ReadinessSlot name => AddReadinessCheck name s
  | LivenessSlot name => AddLivenessCheck name s
  | GrpcSlot name => AddGrpcReadinessCheck name grpcClient s
  end.

Definition registered (k : Slot) (s : grpcHandler) : bool :=
  match k with
  | ReadinessSlot name => bool_decide (is_Some (readinessChecks s !! name))
  | LivenessSlot name => bool_decide (is_Some (livenessChecks s !! name))
  | GrpcSlot name => bool_decide (is_Some (grpcDeps s !! name))
  end.

(** Two check outcomes of the same class: both nil or both errors. *)
Definition sameClass (old new : error) : bool :=
  match old, new with
  | None, None | Some _, Some _ => true
  | _, _ => false
  end.

(** The text an entry is reported with in the results map. *)
Definition statusText (e : error) : string :=
  match e with Some msg => msg | None => "OK" end.

Definition depText (b : bool) : string :=
  if b then "OK" else "grpc service is down".

Definition livenessHealthy (s : grpcHandler) : Prop :=
  ∀ name e, livenessChecks s !! name = Some e → e = None.

(** [results] holds nothing but genuine entries: each key is a registered
    name and its value the text of that name's stored result. *)
Definition reported (s : grpcHandler) (results : gmap string string) : Prop :=
  ∀ k v, results !! k = Some v →
    (∃ e, livenessChecks s !! k = Some e ∧ v = statusText e) ∨
    (∃ e, readinessChecks s !! k = Some e ∧ v = statusText e) ∨
    (∃ b, grpcDeps s !! k = Some b ∧ v = depText b).

(** The event by which the entry [k] turns from healthy to failed. *)
Definition breakdown (k : Slot) (msg : string) : Event :=
  match k with
  | ReadinessSlot name => RunReadiness name (Some msg)
  | LivenessSlot name => RunLiveness name (Some msg)
  | GrpcSlot name => WatchRecv name (Some {| Status := NOT_SERVING |}, None)
  end.

(** The event brings a success: a check that returned nil, or a response
    whose status is SERVING. *)
Definition bringsSuccess (ev : Event) : bool :=
  match ev with
  | RunReadiness _ None | RunLiveness _ None => true
  | WatchRecv _ (Some resp, _) => Status resp =? SERVING
  | _ => false
  end.

(** What a sequence of received statuses makes of a dependency's flag:
    SERVING raises it, NOT_SERVING lowers it, anything else leaves it. *)
Definition lastFlag (init : bool) (statuses : list Z) : bool :=
  fold_left (λ b st, if st =? SERVING then true
                     else if st =? NOT_SERVING then false else b) statuses init.

(** A stream result that carries a response of the given status and no
    error. *)
Definition received (st : Z) : RecvResult := (Some {| Status := st |}, None).

(** A call of [SetServingStatus] as the handler makes them. *)
Definition handlerCall (c : string * Z) : Prop :=
  c = ("", SERVING) ∨ c = ("", NOT_SERVING).

(** The event is the registration call for the entry [k]. *)
Definition registers (ev : Event) (k : Slot) : bool :=
  match ev, k with
  | RegisterReadiness n, ReadinessSlot name
  | RegisterLiveness n, LivenessSlot name
  | RegisterGrpc n _, GrpcSlot name => String.eqb n name
  | _, _ => false
  end.


End handlers.






(** * Properties *)

Import grpc_health_v1 health handlers.

(** ** The range loops *)

Lemma allNil_true (m : gmap string error) :
  allNil m = true ↔ map_Forall (λ _ e, e = None) m.
Proof.
  unfold allNil.
  induction m as [|i x m Hi Hfirst IH] using map_first_key_ind.
  - rewrite map_fold_empty. split; [intros _; apply map_Forall_empty | done].
  - rewrite map_fold_insert_first_key by done.
    rewrite map_Forall_insert by done.
    destruct x as [msg|]; [split; [done | intros [? _]; done] |].
    rewrite IH. split; [intros ?; by split | by intros [_ ?]].
Qed.

Lemma areGrpcDepsOk_true (s : grpcHandler) :
  areGrpcDepsOk s = true ↔ map_Forall (λ _ b, b = true) (grpcDeps s).
Proof.
  unfold areGrpcDepsOk. generalize (grpcDeps s) as m. intros m.
  induction m as [|i x m Hi Hfirst IH] using map_first_key_ind.
  - rewrite map_fold_empty. split; [intros _; apply map_Forall_empty | done].
  - rewrite map_fold_insert_first_key by done.
    rewrite map_Forall_insert by done.
    destruct x; simpl; [rewrite IH; split; [intros ?; by split | by intros [_ ?]] |].
    split; [done | intros [? _]; done].
Qed.

Lemma areChecksOk_true (s : grpcHandler) :
  areChecksOk s = true ↔
  map_Forall (λ _ e, e = None) (readinessChecks s) ∧
  map_Forall (λ _ e, e = None) (livenessChecks s).
Proof.
  unfold areChecksOk. rewrite <- !allNil_true.
  destruct (allNil (readinessChecks s)), (allNil (livenessChecks s)); simpl;
    (split; [intros ?; by split | by intros [??]]).
Qed.

Lemma okWithResults_ok (m : gmap string error) (results : gmap string string) :
  (okWithResults m results).1 = allNil m.
Proof.
  unfold okWithResults, allNil.
  induction m as [|i x m Hi Hfirst IH] using map_first_key_ind.
  - by rewrite !map_fold_empty.
  - rewrite !map_fold_insert_first_key by done. destruct x; simpl; done.
Qed.

Lemma okWithResults_lookup (m : gmap string error) (results : gmap string string) k :
  (okWithResults m results).2 !! k =
  match m !! k with Some e => Some (statusText e) | None => results !! k end.
Proof.
  unfold okWithResults.
  induction m as [|i x m Hi Hfirst IH] using map_first_key_ind.
  - by rewrite map_fold_empty, lookup_empty.
  - rewrite map_fold_insert_first_key by done.
    destruct (decide (i = k)) as [->|Hne].
    + rewrite lookup_insert_eq. destruct x; simpl; by rewrite lookup_insert_eq.
    + rewrite (lookup_insert_ne m) by done. rewrite <- IH.
      destruct x; simpl; by rewrite lookup_insert_ne.
Qed.

Lemma grpcDepsOkWithResults_ok (s : grpcHandler) (results : gmap string string) :
  (grpcDepsOkWithResults s results).1 = areGrpcDepsOk s.
Proof.
  unfold grpcDepsOkWithResults, areGrpcDepsOk. generalize (grpcDeps s) as m. intros m.
  induction m as [|i x m Hi Hfirst IH] using map_first_key_ind.
  - by rewrite !map_fold_empty.
  - rewrite !map_fold_insert_first_key by done. destruct x; simpl; done.
Qed.

Lemma grpcDepsOkWithResults_lookup (s : grpcHandler) (results : gmap string string) k :
  (grpcDepsOkWithResults s results).2 !! k =
  match grpcDeps s !! k with Some b => Some (depText b) | None => results !! k end.
Proof.
  unfold grpcDepsOkWithResults. generalize (grpcDeps s) as m. intros m.
  induction m as [|i x m Hi Hfirst IH] using map_first_key_ind.
  - by rewrite map_fold_empty, lookup_empty.
  - rewrite map_fold_insert_first_key by done.
    destruct (decide (i = k)) as [->|Hne].
    + rewrite lookup_insert_eq. destruct x; simpl; by rewrite lookup_insert_eq.
    + rewrite (lookup_insert_ne m) by done. rewrite <- IH.
      destruct x; simpl; by rewrite lookup_insert_ne.
Qed.

(** ** The gRPC unary check *)

(** C10: the check made by [CheckGRPC] succeeds exactly when the unary
    [Check] call, made with a deadline of one second, returns no error and
    a response whose status is SERVING; any other status, UNKNOWN
    included, is a failure that names the status, and an error of the call
    (a missed deadline among them) is a failure that wraps it. *)
Theorem CheckGRPC_spec (grpcClient : HealthClient) :
  (checks.CheckGRPC grpcClient = Ret None ↔
     ∃ r, Check grpcClient (1 * checks.Second) = (Some r, None) ∧ Status r = SERVING) ∧
  (∀ r, Check grpcClient (1 * checks.Second) = (Some r, None) → Status r ≠ SERVING →
     checks.CheckGRPC grpcClient =
       Ret (Some ("gRPC healthcheck failed, bad status: " +:+ ServingStatus_name (Status r)))) ∧
  (∀ r, Check grpcClient (1 * checks.Second) = (Some r, None) → Status r = UNKNOWN →
     checks.CheckGRPC grpcClient = Ret (Some "gRPC healthcheck failed, bad status: UNKNOWN")) ∧
  (∀ resp e, Check grpcClient (1 * checks.Second) = (resp, Some e) →
     checks.CheckGRPC grpcClient = Ret (Some ("gRPC healthcheck failed: " +:+ e))).
Proof.
  unfold checks.CheckGRPC.
  destruct (Check grpcClient (1 * checks.Second)) as [resp err] eqn:Hcall.
  repeat split.
  - destruct err as [e|]; [done|]. destruct resp as [r|]; [|done].
    destruct (Z.eqb_spec (Status r) SERVING) as [Heq|Hne]; simpl; [|done].
    intros _. by exists r.
  - intros (r & Hr & Hst). inversion Hr; subst.
    rewrite Hst. reflexivity.
  - intros r Hr Hst. inversion Hr; subst.
    destruct (Z.eqb_spec (Status r) SERVING); [done|reflexivity].
  - intros r Hr Hst. inversion Hr; subst. rewrite Hst. reflexivity.
  - intros resp' e Hr. inversion Hr; subst. reflexivity.
Qed.

(** A client whose [Check] answers UNKNOWN makes the check fail. *)
Lemma CheckGRPC_spec_witness :
  checks.CheckGRPC {| Check := λ _, (Some {| Status := UNKNOWN |}, None); Watch := None |}
  = Ret (Some "gRPC healthcheck failed, bad status: UNKNOWN").
Proof.
  apply (proj1 (proj2 (proj2 (CheckGRPC_spec
           {| Check := λ _, (Some {| Status := UNKNOWN |}, None); Watch := None |}))))
    with (r := {| Status := UNKNOWN |}); reflexivity.
Defined.

(** ** Registration *)

(** C2: in each of the three namespaces, registering a name that is already
    there returns the conflict error and leaves the whole handler, hence the
    result stored by the first registration, as it was. *)
Theorem duplicate_registration_conflict (name : string) (s : grpcHandler) :
  (is_Some (readinessChecks s !! name) →
     AddReadinessCheck name s =
       (Some ("readiness check '" +:+ name +:+ "' already exists"), s)) ∧
  (is_Some (livenessChecks s !! name) →
     AddLivenessCheck name s =
       (Some ("liveness check '" +:+ name +:+ "' already exists"), s)) ∧
  (∀ grpcClient, is_Some (grpcDeps s !! name) →
     AddGrpcReadinessCheck name grpcClient s =
       (Some ("grpc readiness check '" +:+ name +:+ "' already exists"), s)).
Proof.
  repeat split.
  - intros [e He]. unfold AddReadinessCheck. by rewrite He.
  - intros [e He]. unfold AddLivenessCheck. by rewrite He.
  - intros grpcClient [b Hb]. unfold AddGrpcReadinessCheck. by rewrite Hb.
Qed.

Lemma duplicate_registration_conflict_witness :
  let grpcClient := {| Check := λ _, (None, Some "unavailable"); Watch := None |} in
  let s := (AddGrpcReadinessCheck "db" grpcClient
              (AddLivenessCheck "db"
                 (AddReadinessCheck "db" (NewGrpcHandler NewServer)).2).2).2 in
  AddReadinessCheck "db" s = (Some "readiness check 'db' already exists", s) ∧
  AddLivenessCheck "db" s = (Some "liveness check 'db' already exists", s) ∧
  AddGrpcReadinessCheck "db" grpcClient s =
    (Some "grpc readiness check 'db' already exists", s).
Proof.
  intros grpcClient s.
  destruct (duplicate_registration_conflict "db" s) as (Hr & Hl & Hg).
  split; [|split].
  - apply Hr. exists (Some "placeholder"). vm_compute. reflexivity.
  - apply Hl. exists (Some "placeholder"). vm_compute. reflexivity.
  - apply Hg. exists false. vm_compute. reflexivity.
Defined.

(** An event that is not a run of the entry [k] leaves a failure stored in
    [k] in place. *)
Lemma exec_keeps_failed (ev : Event) (k : Slot) (s s' : grpcHandler) :
  executes ev k = false → exec ev s = Ret s' → failed k s = true → failed k s' = true.
Proof.
  intros Hex Hexec Hf.
  destruct ev as [n|n|n c|n err|n err|n [resp rerr]], k as [name|name|name];
    simpl in *; try apply String.eqb_neq in Hex;
    unfold AddReadinessCheck, AddLivenessCheck, AddGrpcReadinessCheck,
      AddReadinessCheck_func1, AddLivenessCheck_func1, watchUpdate in *.
  all: repeat (case_match; simplify_eq/=); try done.
  all: destruct (decide (n = name)) as [->|?]; by simplify_map_eq.
Qed.

(** C3: a name registered afresh, in any of the three namespaces, holds a
    failure (the placeholder error, or a false flag) when the registration
    returns, and keeps holding one through every later event that is not a
    run of its own check or an event of its own watch. *)
Theorem fresh_registration_unhealthy (k : Slot) (grpcClient : HealthClient)
        (s : grpcHandler) (evs : list Event) (s' : grpcHandler) :
  registered k s = false →
  Forall (λ ev, executes ev k = false) evs →
  run evs (register k grpcClient s).2 = Ret s' →
  failed k (register k grpcClient s).2 = true ∧ failed k s' = true.
Proof.
  intros Hfresh Hevs Hrun.
  assert (failed k (register k grpcClient s).2 = true) as Hreg.
  { destruct k as [name|name|name]; simpl in *;
      apply bool_decide_eq_false in Hfresh;
      rewrite <- eq_None_not_Some in Hfresh;
      unfold AddReadinessCheck, AddLivenessCheck, AddGrpcReadinessCheck;
      rewrite Hfresh; simpl; [| |destruct (Watch grpcClient); simpl];
      by rewrite lookup_insert_eq. }
  split; [done|].
  revert Hrun Hreg. generalize (register k grpcClient s).2 as s0.
  induction Hevs as [|ev evs Hev _ IH]; intros s0 Hrun Hs0; simpl in Hrun.
  - by inversion Hrun; subst.
  - destruct (enabled ev s0); [|done].
    destruct (exec ev s0) as [s1|] eqn:Hexec; [|done].
    apply (IH s1); [done|]. by eapply exec_keeps_failed.
Qed.

Lemma fresh_registration_unhealthy_witness :
  let grpcClient := {| Check := λ _, (None, Some "unavailable"); Watch := None |} in
  let s := NewGrpcHandler NewServer in
  let evs := [RegisterLiveness "mem"; RunLiveness "mem" None; RegisterReadiness "db";
              RunReadiness "db" None; RegisterGrpc "auth" grpcClient] in
  ∃ s', run evs (AddGrpcReadinessCheck "auth" grpcClient s).2 = Ret s' ∧
        failed (GrpcSlot "auth") (AddGrpcReadinessCheck "auth" grpcClient s).2 = true ∧
        failed (GrpcSlot "auth") s' = true.
Proof.
  intros grpcClient s evs.
  destruct (run evs (AddGrpcReadinessCheck "auth" grpcClient s).2) as [s'|] eqn:Hrun;
    [|vm_compute in Hrun; discriminate].
  exists s'. split; [reflexivity|].
  apply (fresh_registration_unhealthy (GrpcSlot "auth") grpcClient s evs s').
  - vm_compute. reflexivity.
  - repeat constructor.
  - exact Hrun.
Defined.

(** ** Transitions of the serving status *)

(** One stored failure is enough to make the full aggregate false, in
    whichever order its two halves are evaluated. *)
Lemma failed_blocks (k : Slot) (s : grpcHandler) :
  failed k s = true → areChecksOk s && areGrpcDepsOk s = false.
Proof.
  intros Hf. apply not_true_is_false. intros Hok.
  apply andb_true_iff in Hok as [Hc Hg].
  apply areChecksOk_true in Hc as [Hr Hl]. apply areGrpcDepsOk_true in Hg.
  destruct k as [name|name|name]; simpl in Hf.
  - destruct (readinessChecks s !! name) as [[msg|]|] eqn:E; try done.
    by specialize (Hr _ _ E).
  - destruct (livenessChecks s !! name) as [[msg|]|] eqn:E; try done.
    by specialize (Hl _ _ E).
  - destruct (grpcDeps s !! name) as [[|]|] eqn:E; try done.
    by specialize (Hg _ _ E).
Qed.

(** C5: when two entries hold failures and one of them recovers while the
    other still fails, the recovery stores the success and makes no call of
    [SetServingStatus] at all: the flag is not set to SERVING by it. *)
Theorem single_recovery_keeps_flag (a b : Slot) (s s' : grpcHandler) :
  a ≠ b → failed a s = true → failed b s = true →
  exec (recovery a) s = Ret s' →
  grpcHealthServer s' = grpcHealthServer s ∧ passed a s' = true ∧ failed b s' = true.
Proof.
  intros Hab Ha Hb Hexec.
  destruct a as [n|n|n]; simpl in Ha, Hexec.
  - destruct (readinessChecks s !! n) as [[msg|]|] eqn:E; try done.
    unfold AddReadinessCheck_func1, index_err in Hexec. rewrite E in Hexec.
    simpl in Hexec.
    set (s1 := set_readinessChecks (<[n:=None]> (readinessChecks s)) s) in *.
    assert (failed b s1 = true) as Hb1.
    { destruct b as [m|m|m]; simpl in *; try done.
      rewrite lookup_insert_ne; [done | congruence]. }
    rewrite (failed_blocks _ _ Hb1) in Hexec. inversion Hexec; subst s'.
    repeat split; [|done]. simpl. by rewrite lookup_insert_eq.
  - destruct (livenessChecks s !! n) as [[msg|]|] eqn:E; try done.
    unfold AddLivenessCheck_func1, index_err in Hexec. rewrite E in Hexec.
    simpl in Hexec.
    set (s1 := set_livenessChecks (<[n:=None]> (livenessChecks s)) s) in *.
    assert (failed b s1 = true) as Hb1.
    { destruct b as [m|m|m]; simpl in *; try done.
      rewrite lookup_insert_ne; [done | congruence]. }
    rewrite (failed_blocks _ _ Hb1) in Hexec. inversion Hexec; subst s'.
    repeat split; [|done]. simpl. by rewrite lookup_insert_eq.
  - destruct (grpcDeps s !! n) as [[|]|] eqn:E; try done.
    unfold watchUpdate, index_bool in Hexec. rewrite E in Hexec.
    simpl in Hexec.
    set (s1 := set_grpcDeps (<[n:=true]> (grpcDeps s)) s) in *.
    assert (failed b s1 = true) as Hb1.
    { destruct b as [m|m|m]; simpl in *; try done.
      rewrite lookup_insert_ne; [done | congruence]. }
    rewrite andb_comm in Hexec.
    rewrite (failed_blocks _ _ Hb1) in Hexec. inversion Hexec; subst s'.
    repeat split; [|done]. simpl. by rewrite lookup_insert_eq.
Qed.

Lemma single_recovery_keeps_flag_witness :
  let s := (AddLivenessCheck "mem" (AddReadinessCheck "db" (NewGrpcHandler NewServer)).2).2 in
  let s' := AddReadinessCheck_func1 "db" None s in
  grpcHealthServer s' = grpcHealthServer s ∧
  passed (ReadinessSlot "db") s' = true ∧ failed (LivenessSlot "mem") s' = true.
Proof.
  intros s s'.
  apply (single_recovery_keeps_flag (ReadinessSlot "db") (LivenessSlot "mem") s s').
  - discriminate.
  - vm_compute. reflexivity.
  - vm_compute. reflexivity.
  - reflexivity.
Defined.

(** C6 as stated fails for a check that fails on its first run after
    registration: the outcome is of the same class as the stored
    placeholder, yet the failure it reports is not stored and the entry
    still reads "placeholder". *)
Lemma repeated_failure_not_stored :
  let s := (AddReadinessCheck "db" (NewGrpcHandler NewServer)).2 in
  let s' := AddReadinessCheck_func1 "db" (Some "connection refused") s in
  sameClass (index_err (readinessChecks s) "db") (Some "connection refused") = true ∧
  readinessChecks s' !! "db" = Some (Some "placeholder") ∧
  readinessChecks s' !! "db" ≠ Some (Some "connection refused").
Proof.
  intros s s'. split; [reflexivity|].
  assert (readinessChecks s' !! "db" = Some (Some "placeholder")) as E
    by (vm_compute; reflexivity).
  split; [exact E|]. rewrite E. discriminate.
Qed.

(** C6, as the code has it: a run whose outcome is of the same class as the
    stored one (nil after nil, an error after an error) leaves the whole
    handler as it was. The stored result stays the previous one, no status
    is set, and no entry of any result set changes. *)
Theorem same_class_run_changes_nothing (name : string) (err : error) (s : grpcHandler) :
  (sameClass (index_err (readinessChecks s) name) err = true →
     AddReadinessCheck_func1 name err s = s) ∧
  (sameClass (index_err (livenessChecks s) name) err = true →
     AddLivenessCheck_func1 name err s = s).
Proof.
  unfold AddReadinessCheck_func1, AddLivenessCheck_func1. split; intros Hsame.
  - destruct (index_err (readinessChecks s) name), err; done.
  - destruct (index_err (livenessChecks s) name), err; done.
Qed.

Lemma same_class_run_changes_nothing_witness :
  let s := (AddLivenessCheck "mem" (AddReadinessCheck "db" (NewGrpcHandler NewServer)).2).2 in
  AddReadinessCheck_func1 "db" (Some "connection refused") s = s ∧
  AddLivenessCheck_func1 "mem" (Some "out of memory") s = s.
Proof.
  intros s.
  destruct (same_class_run_changes_nothing "db" (Some "connection refused") s) as [Hr _].
  destruct (same_class_run_changes_nothing "mem" (Some "out of memory") s) as [_ Hl].
  split; [apply Hr | apply Hl]; reflexivity.
Defined.

(** ** The HTTP endpoints *)

Lemma allHealthy_true (s : grpcHandler) :
  allHealthy s ↔
  allNil (livenessChecks s) && allNil (readinessChecks s) && areGrpcDepsOk s = true.
Proof.
  rewrite !andb_true_iff, !allNil_true, areGrpcDepsOk_true.
  unfold allHealthy, map_Forall. tauto.
Qed.

Lemma livenessHealthy_true (s : grpcHandler) :
  livenessHealthy s ↔ allNil (livenessChecks s) = true.
Proof. by rewrite allNil_true. Qed.

Lemma andAlso_false acc f : acc.1 = false → andAlso acc f = acc.
Proof. unfold andAlso. by intros ->. Qed.

Lemma andAlso_true acc f : acc.1 = true → andAlso acc f = f acc.2.
Proof. unfold andAlso. by intros ->. Qed.

(** The [ok] and the [results] that [ReadyEndpoint] arrives at. *)
Lemma ReadyEndpoint_GET (r : Request) (s : grpcHandler) :
  Method r = "GET" →
  ∃ results,
    ReadyEndpoint r s =
      writeResponse r
        (if allNil (livenessChecks s) && allNil (readinessChecks s) && areGrpcDepsOk s
         then StatusOK else StatusServiceUnavailable) results ∧
    reported s results ∧
    (allNil (livenessChecks s) && allNil (readinessChecks s) = true →
     ∀ k, is_Some (results !! k) ↔
          is_Some (livenessChecks s !! k) ∨ is_Some (readinessChecks s !! k) ∨
          is_Some (grpcDeps s !! k)).
Proof.
  intros HGET. unfold ReadyEndpoint. rewrite HGET. cbv zeta.
  change (negb ("GET" =? "GET")%string) with false. cbv iota.
  rewrite (andAlso_true (true, ∅)) by done.
  unfold livenessOkWithResults, readinessOkWithResults. simpl snd.
  set (acc1 := okWithResults (livenessChecks s) ∅).
  assert (acc1.1 = allNil (livenessChecks s)) as H1 by apply okWithResults_ok.
  assert (reported s acc1.2) as R1.
  { intros k v. unfold acc1. rewrite okWithResults_lookup, lookup_empty.
    destruct (livenessChecks s !! k) as [e|] eqn:E; [|done].
    intros [= <-]. left. by exists e. }
  destruct (allNil (livenessChecks s)) eqn:Hl.
  2:{ rewrite !(andAlso_false acc1) by done. rewrite H1. simpl.
      exists acc1.2. by repeat split. }
  rewrite (andAlso_true acc1) by done.
  set (acc2 := okWithResults (readinessChecks s) acc1.2).
  assert (acc2.1 = allNil (readinessChecks s)) as H2 by apply okWithResults_ok.
  assert (reported s acc2.2) as R2.
  { intros k v. unfold acc2. rewrite okWithResults_lookup.
    pose proof (R1 k v) as R1k.
    destruct (readinessChecks s !! k) as [e|] eqn:E; [|exact R1k].
    intros [= <-]. right. left. by exists e. }
  destruct (allNil (readinessChecks s)) eqn:Hr.
  2:{ rewrite !(andAlso_false acc2) by done. rewrite H2. simpl.
      exists acc2.2. by repeat split. }
  rewrite (andAlso_true acc2) by done.
  rewrite grpcDepsOkWithResults_ok. simpl.
  exists (grpcDepsOkWithResults s acc2.2).2. split; [|split].
  - by destruct (areGrpcDepsOk s).
  - intros k v. rewrite grpcDepsOkWithResults_lookup.
    pose proof (R2 k v) as R2k.
    destruct (grpcDeps s !! k) as [b|] eqn:E; [|exact R2k].
    intros [= <-]. right. right. by exists b.
  - intros _ k. rewrite grpcDepsOkWithResults_lookup. unfold acc2.
    rewrite okWithResults_lookup. unfold acc1.
    rewrite okWithResults_lookup, lookup_empty.
    destruct (grpcDeps s !! k), (readinessChecks s !! k), (livenessChecks s !! k);
      (split; [try (intros _; by eauto 6) | try (intros _; by eauto)]).
    + intros [? [=]].
    + intros [[? [=]]|[[? [=]]|[? [=]]]].
Qed.

Lemma LiveEndpoint_GET (r : Request) (s : grpcHandler) :
  Method r = "GET" →
  LiveEndpoint r s =
    writeResponse r
      (if allNil (livenessChecks s) then StatusOK else StatusServiceUnavailable)
      (statusText <$> livenessChecks s).
Proof.
  intros HGET. unfold LiveEndpoint. rewrite HGET. simpl.
  unfold andAlso. simpl. unfold livenessOkWithResults.
  rewrite okWithResults_ok.
  assert ((okWithResults (livenessChecks s) ∅).2 = statusText <$> livenessChecks s) as ->.
  { apply map_eq. intros k. rewrite okWithResults_lookup, lookup_fmap, lookup_empty.
    by destruct (livenessChecks s !! k). }
  by destruct (allNil (livenessChecks s)).
Qed.

Lemma writeResponse_StatusCode r status results :
  StatusCode (writeResponse r status results) = status.
Proof. unfold writeResponse. by destruct (negb _). Qed.

(** C4: on a GET, /ready answers 200 exactly when every readiness result,
    every liveness result and every gRPC dependency flag is healthy, so a
    failed liveness check or a dependency that is down makes it unhealthy
    too; /live answers 200 exactly when every liveness result is healthy,
    and its whole response is a function of the liveness results alone. *)
Theorem endpoint_aggregates (q : list (string * string)) (s : grpcHandler) :
  (StatusCode (ReadyEndpoint {| Method := "GET"; Query := q |} s) = StatusOK ↔
     allHealthy s) ∧
  (StatusCode (LiveEndpoint {| Method := "GET"; Query := q |} s) = StatusOK ↔
     livenessHealthy s) ∧
  (∀ r s2, livenessChecks s2 = livenessChecks s → LiveEndpoint r s2 = LiveEndpoint r s).
Proof.
  split; [|split].
  - destruct (ReadyEndpoint_GET {| Method := "GET"; Query := q |} s eq_refl)
      as (results & -> & _).
    rewrite writeResponse_StatusCode, allHealthy_true.
    by destruct (allNil (livenessChecks s) && allNil (readinessChecks s) && areGrpcDepsOk s).
  - rewrite LiveEndpoint_GET by done.
    rewrite writeResponse_StatusCode, livenessHealthy_true.
    by destruct (allNil (livenessChecks s)).
  - intros r s2 Heq. unfold LiveEndpoint, livenessOkWithResults. by rewrite Heq.
Qed.

Lemma endpoint_aggregates_witness :
  let s := (AddLivenessCheck "mem" (NewGrpcHandler NewServer)).2 in
  let s2 := AddReadinessCheck_func1 "db" None
              (AddReadinessCheck "db" (AddGrpcReadinessCheck "auth"
                 {| Check := λ _, (None, Some "unavailable"); Watch := None |} s).2).2 in
  LiveEndpoint {| Method := "GET"; Query := [("full", "1")] |} s2 =
  LiveEndpoint {| Method := "GET"; Query := [("full", "1")] |} s.
Proof.
  intros s s2.
  apply (proj2 (proj2 (endpoint_aggregates [] s))). reflexivity.
Defined.






(** When every liveness and every readiness result is nil, the map that
    /ready encodes under [full=1] has exactly the registered names of the
    three namespaces as its keys. *)
Lemma ready_full_keys_when_checks_pass (r : Request) (s : grpcHandler) :
  Method r = "GET" → Get (Query r) "full" = "1" →
  allNil (livenessChecks s) && allNil (readinessChecks s) = true →
  ∃ results, body (ReadyEndpoint r s) = Encoded results ∧
    ∀ k, is_Some (results !! k) ↔
         is_Some (livenessChecks s !! k) ∨ is_Some (readinessChecks s !! k) ∨
         is_Some (grpcDeps s !! k).
Proof.
  intros HGET Hfull Hok.
  destruct (ReadyEndpoint_GET r s HGET) as (results & -> & _ & Hkeys).
  exists results. split; [|by apply Hkeys].
  apply String.eqb_eq in Hfull. unfold writeResponse. by rewrite Hfull.
Qed.

(** C7, on a handler with a liveness check "mem" that has not passed yet and
    a readiness check "db" that has: /ready with [full=1] encodes the entry
    of "mem" alone; "db" is registered but is not a key of the body. *)
Theorem ready_full_omits_names :
  let s := AddReadinessCheck_func1 "db" None
             (AddReadinessCheck "db"
                (AddLivenessCheck "mem" (NewGrpcHandler NewServer)).2).2 in
  readinessChecks s !! "db" = Some None ∧
  ReadyEndpoint {| Method := "GET"; Query := [("full", "1")] |} s =
    {| StatusCode := 503; ContentType := "application/json; charset=utf-8";
       body := Encoded {[ "mem" := "placeholder" ]} |}.
Proof. split; vm_compute; reflexivity. Qed.

(** ** The watch goroutine *)

(** A transport error ends the goroutine: it returns, reads no further
    result and leaves the handler, the dependency's flag included, as it
    was. *)
Lemma watch_transport_error_returns (name msg : string) resp
      (recvs : list RecvResult) (s : grpcHandler) :
  AddGrpcReadinessCheck_func1 name ((resp, Some (RecvFailed msg)) :: recvs) s = Returned s.
Proof. reflexivity. Qed.

(** C8, at the clean end of a stream: [Recv] hands back a nil response and
    [io.EOF], the loop is not left, and reading the status of the nil
    response panics. *)
Theorem watch_end_of_stream_panics (name : string) (recvs : list RecvResult)
        (s : grpcHandler) :
  AddGrpcReadinessCheck_func1 name ((None, Some io_EOF) :: recvs) s = Panicked s.
Proof. reflexivity. Qed.

(** Were a response to come along with [io.EOF], the goroutine would treat it
    as one more event and go on to the next [Recv]. *)
Lemma watch_end_of_stream_goes_on (name : string) (r : HealthCheckResponse)
      (s : grpcHandler) :
  ∃ s', watchIter name (Some r, Some io_EOF) s = Running s'.
Proof.
  unfold watchIter, watchUpdate.
  repeat case_match; eauto.
Qed.

(** ** The serving status against the stored results *)

Lemma run_reachable (evs : list Event) (s s' : grpcHandler) :
  reachable s → run evs s = Ret s' → reachable s'.
Proof.
  revert s. induction evs as [|ev evs IH]; intros s Hs Hrun; simpl in Hrun.
  - by inversion Hrun; subst.
  - destruct (enabled ev s) eqn:Hen; [|done].
    destruct (exec ev s) as [s1|] eqn:Hexec; [|done].
    apply (IH s1); [|done]. by eapply reachable_step.
Qed.

Lemma servingStatus_setServing (st : Z) (s : grpcHandler) :
  servingStatus (setServing st s) = st.
Proof. unfold servingStatus, setServing. simpl. by rewrite lookup_insert_eq. Qed.

Lemma allHealthy_ok (s : grpcHandler) :
  allHealthy s ↔ areChecksOk s && areGrpcDepsOk s = true.
Proof.
  rewrite andb_true_iff, areChecksOk_true, areGrpcDepsOk_true.
  unfold allHealthy, map_Forall. tauto.
Qed.

(** Taken one whole callback or watch turn at a time (the store, the two
    aggregate reads and the status call with nothing in between), the flag
    tells no false positive as long as nothing is registered while it reads
    SERVING: a run of a check or a watch event keeps "SERVING only if every
    stored result is healthy". The source releases the lock between the
    store and the reads, so this speaks of runs that do not overlap. *)
Lemma runs_keep_no_false_positive (ev : Event) (s s' : grpcHandler) :
  (∃ k, executes ev k = true) →
  (servingStatus s = SERVING → allHealthy s) →
  exec ev s = Ret s' →
  servingStatus s' = SERVING → allHealthy s'.
Proof.
  intros [k Hk] Hinv Hexec.
  destruct ev as [n|n|n c|n err|n err|n [resp rerr]], k as [m|m|m];
    simpl in Hk; try done; clear Hk m; simpl in Hexec.
  - unfold AddReadinessCheck_func1, index_err in Hexec.
    destruct (readinessChecks s !! n) as [[msg|]|] eqn:E, err as [e|];
      simpl in Hexec; simplify_eq; try done.
    + match goal with |- context [if ?b then _ else _] => destruct b eqn:Hok end.
      * intros _. by apply allHealthy_ok.
      * intros Hs. destruct (Hinv Hs) as (Hr & _). by specialize (Hr _ _ E).
    + by rewrite servingStatus_setServing.
    + by rewrite servingStatus_setServing.
  - unfold AddLivenessCheck_func1, index_err in Hexec.
    destruct (livenessChecks s !! n) as [[msg|]|] eqn:E, err as [e|];
      simpl in Hexec; simplify_eq; try done.
    + match goal with |- context [if ?b then _ else _] => destruct b eqn:Hok end.
      * intros _. by apply allHealthy_ok.
      * intros Hs. destruct (Hinv Hs) as (_ & Hl & _). by specialize (Hl _ _ E).
    + by rewrite servingStatus_setServing.
    + by rewrite servingStatus_setServing.
  - assert (∀ r0 s0, watchUpdate n r0 s = Running s0 →
                     servingStatus s0 = SERVING → allHealthy s0) as Hupd.
    { intros r0 s0. unfold watchUpdate. destruct r0 as [r0|]; [|done].
      destruct (_ && negb _) eqn:Hup.
      - destruct (negb (_ && areChecksOk _)) eqn:Hok; intros [= <-].
        + intros Hs. destruct (Hinv Hs) as (Hr & Hl & Hg).
          split; [done|]. split; [done|]. simpl. intros k b.
          destruct (decide (n = k)) as [->|?]; simplify_map_eq;
            [by intros [= <-] | by apply Hg].
        + intros _. apply allHealthy_ok. apply negb_false_iff in Hok.
          simpl in Hok. by rewrite andb_comm.
      - destruct (_ && index_bool _ _); intros [= <-]; [|done].
        by rewrite servingStatus_setServing. }
    unfold watchIter in Hexec.
    destruct rerr as [[|msg]|]; simpl in Hexec.
    + destruct (watchUpdate n resp s) eqn:Hw; simplify_eq; [by eapply Hupd|].
      unfold watchUpdate in Hw. by repeat case_match.
    + by simplify_eq.
    + destruct (watchUpdate n resp s) eqn:Hw; simplify_eq; [by eapply Hupd|].
      unfold watchUpdate in Hw. by repeat case_match.
Qed.

(** C1, on a handler that registers and passes readiness check "a", then
    registers readiness check "b", which fails from its first run on: the
    state is reachable, the flag reads SERVING, and "b" holds a failure. *)
Theorem serving_with_failed_check :
  let evs := [RegisterReadiness "a"; RunReadiness "a" None;
              RegisterReadiness "b"; RunReadiness "b" (Some "connection refused")] in
  ∃ s, run evs (NewGrpcHandler NewServer) = Ret s ∧
       reachable s ∧
       servingStatus s = SERVING ∧
       readinessChecks s !! "b" = Some (Some "placeholder") ∧
       ¬ allHealthy s.
Proof.
  intros evs.
  destruct (run evs (NewGrpcHandler NewServer)) as [s|] eqn:Hrun;
    [|vm_compute in Hrun; discriminate].
  exists s. split; [done|].
  split; [by eapply run_reachable; [apply reachable_new | exact Hrun]|].
  vm_compute in Hrun. injection Hrun as <-.
  split; [reflexivity|]. split; [reflexivity|].
  intros (Hr & _). by specialize (Hr "b" _ eq_refl).
Qed.

(** * Further properties of the code *)

(** ** package checks *)

(** X1: the gRPC check panics exactly when the client hands back a nil
    response together with a nil error; in every other case it returns. *)
Theorem CheckGRPC_panics_iff (grpcClient : HealthClient) :
  checks.CheckGRPC grpcClient = Panic ↔
  Check grpcClient (1 * checks.Second) = (None, None).
Proof.
  unfold checks.CheckGRPC.
  destruct (Check grpcClient (1 * checks.Second)) as [[r|] [e|]]; simpl;
    try (split; intros; discriminate).
  - destruct (negb (Status r =? SERVING)); split; intros; discriminate.
  - done.
Qed.

(** X2: the ping check fails with "database is nil" on a nil database
    without calling it, and otherwise returns whatever [PingContext] returns
    for the given timeout; so it succeeds exactly on a non-nil database
    whose ping succeeds. *)
Theorem DatabasePingCheck_spec (database : option checks.DB) (timeout : Z) :
  (database = None → checks.DatabasePingCheck database timeout = Some "database is nil") ∧
  (∀ db, database = Some db →
     checks.DatabasePingCheck database timeout = checks.PingContext db timeout) ∧
  (checks.DatabasePingCheck database timeout = None ↔
     ∃ db, database = Some db ∧ checks.PingContext db timeout = None).
Proof.
  split; [by intros ->|]. split; [by intros db ->|].
  destruct database as [db|]; simpl.
  - split; [intros H; by exists db | by intros (db' & [= <-] & ?)].
  - split; [done | by intros (db' & ? & _)].
Qed.

Lemma DatabasePingCheck_spec_witness :
  checks.DatabasePingCheck None (1 * checks.Second) = Some "database is nil" ∧
  checks.DatabasePingCheck
    (Some {| checks.PingContext := λ _, None;
             checks.ExecContext := λ _ _, (None, Some "closed") |})
    (1 * checks.Second) = None.
Proof.
  split.
  - apply (proj1 (DatabasePingCheck_spec None (1 * checks.Second))). reflexivity.
  - apply (proj2 (proj2 (DatabasePingCheck_spec _ _))). eexists. split; reflexivity.
Defined.

(** X3: the select check succeeds exactly when [SELECT 1] executes without
    error and reports, without error, one affected row. An error of the
    execution or of [RowsAffected] is wrapped, any other row count is
    reported with the count, and the check panics only on a nil result that
    comes with a nil error. *)
Theorem DatabaseSelectCheck_spec (client : checks.DB) (timeout : Z) :
  (checks.DatabaseSelectCheck client timeout = Ret None ↔
     ∃ res, checks.ExecContext client timeout "SELECT 1" = (Some res, None) ∧
            checks.RowsAffected res = (1, None)) ∧
  (∀ res e, checks.ExecContext client timeout "SELECT 1" = (res, Some e) →
     checks.DatabaseSelectCheck client timeout =
       Ret (Some ("SQL healthcheck failed for SELECT 1: " +:+ e))) ∧
  (∀ res rows e, checks.ExecContext client timeout "SELECT 1" = (Some res, None) →
     checks.RowsAffected res = (rows, Some e) →
     checks.DatabaseSelectCheck client timeout =
       Ret (Some ("SQL healthcheck failed, rows affected error: " +:+ e))) ∧
  (∀ res rows, checks.ExecContext client timeout "SELECT 1" = (Some res, None) →
     checks.RowsAffected res = (rows, None) → rows ≠ 1 →
     checks.DatabaseSelectCheck client timeout =
       Ret (Some ("SQL healthcheck failed, incorrect DB result (expected 1 row, got "
                  +:+ pretty rows +:+ ")"))) ∧
  (checks.DatabaseSelectCheck client timeout = Panic ↔
     checks.ExecContext client timeout "SELECT 1" = (None, None)).
Proof.
  unfold checks.DatabaseSelectCheck.
  destruct (checks.ExecContext client timeout "SELECT 1") as [res err] eqn:Hexec.
  split; [|split; [|split; [|split]]].
  - split.
    + destruct err; [done|]. destruct res as [res|]; [|done].
      destruct (checks.RowsAffected res) as [rows [e|]] eqn:Hr; [done|].
      destruct (Z.eqb_spec rows 1) as [->|]; [|done]. intros _. by exists res.
    + intros (res' & [= -> ->] & Hr). by rewrite Hr.
  - by intros res' e [= -> ->].
  - intros res' rows e [= -> ->] Hr. by rewrite Hr.
  - intros res' rows [= -> ->] Hr Hne. rewrite Hr.
    by destruct (Z.eqb_spec rows 1).
  - split.
    + destruct err; [done|]. destruct res as [res|]; [|done].
      destruct (checks.RowsAffected res) as [rows [e|]]; [done|].
      by destruct (negb _).
    + by intros [= -> ->].
Qed.

Lemma DatabaseSelectCheck_spec_witness :
  checks.DatabaseSelectCheck
    {| checks.PingContext := λ _, None;
       checks.ExecContext := λ _ _, (Some {| checks.RowsAffected := (0, None) |}, None) |}
    (1 * checks.Second) =
  Ret (Some "SQL healthcheck failed, incorrect DB result (expected 1 row, got 0)").
Proof.
  etrans.
  - apply (proj1 (proj2 (proj2 (proj2 (DatabaseSelectCheck_spec _ _)))))
      with (res := {| checks.RowsAffected := (0, None) |}) (rows := 0);
      [reflexivity | reflexivity | discriminate].
  - vm_compute. reflexivity.
Defined.

(** X4: the Redis check succeeds exactly when the ping has no error, and a
    ping error comes back wrapped, never as it was. *)
Theorem CheckRedis_spec (client : checks.Cmdable) :
  (checks.CheckRedis client = None ↔ checks.Ping client = None) ∧
  (∀ e, checks.Ping client = Some e →
     checks.CheckRedis client = Some ("Redis healthcheck failed: " +:+ e)).
Proof.
  unfold checks.CheckRedis. destruct (checks.Ping client) as [e|]; simpl.
  - split; [split; intros; discriminate | by intros ? [= ->]].
  - split; [done | intros; discriminate].
Qed.

Lemma CheckRedis_spec_witness :
  checks.CheckRedis {| checks.Ping := Some "connection refused" |} =
  Some "Redis healthcheck failed: connection refused".
Proof.
  apply (proj2 (CheckRedis_spec {| checks.Ping := Some "connection refused" |})).
  reflexivity.
Defined.

(** ** package handlers: the stored results and the endpoints *)

Lemma allHealthy_no_failed (s : grpcHandler) :
  allHealthy s ↔ ∀ k, failed k s = false.
Proof.
  split.
  - intros (Hr & Hl & Hg) [n|n|n]; simpl.
    + destruct (readinessChecks s !! n) as [[msg|]|] eqn:E; try done.
      by specialize (Hr _ _ E).
    + destruct (livenessChecks s !! n) as [[msg|]|] eqn:E; try done.
      by specialize (Hl _ _ E).
    + destruct (grpcDeps s !! n) as [[|]|] eqn:E; try done.
      by specialize (Hg _ _ E).
  - intros Hno. split; [|split].
    + intros n e E. specialize (Hno (ReadinessSlot n)). simpl in Hno.
      rewrite E in Hno. by destruct e.
    + intros n e E. specialize (Hno (LivenessSlot n)). simpl in Hno.
      rewrite E in Hno. by destruct e.
    + intros n b E. specialize (Hno (GrpcSlot n)). simpl in Hno.
      rewrite E in Hno. by destruct b.
Qed.

(** A stored failure makes /ready answer 503. *)
Lemma failed_ready_unavailable (k : Slot) (s : grpcHandler) (q : list (string * string)) :
  failed k s = true →
  StatusCode (ReadyEndpoint {| Method := "GET"; Query := q |} s) = StatusServiceUnavailable.
Proof.
  intros Hf.
  destruct (ReadyEndpoint_GET {| Method := "GET"; Query := q |} s eq_refl)
    as (results & -> & _).
  rewrite writeResponse_StatusCode.
  destruct (allNil (livenessChecks s) && allNil (readinessChecks s) && areGrpcDepsOk s)
    eqn:Hok; [|done].
  apply allHealthy_true in Hok.
  pose proof (proj1 (allHealthy_no_failed s) Hok k) as Hk. by rewrite Hk in Hf.
Qed.

(** A stored liveness failure makes /live answer 503. *)
Lemma failed_live_unavailable (name : string) (s : grpcHandler) (q : list (string * string)) :
  failed (LivenessSlot name) s = true →
  StatusCode (LiveEndpoint {| Method := "GET"; Query := q |} s) = StatusServiceUnavailable.
Proof.
  intros Hf. rewrite LiveEndpoint_GET by done. rewrite writeResponse_StatusCode.
  destruct (allNil (livenessChecks s)) eqn:Hok; [|done].
  apply allNil_true in Hok. simpl in Hf.
  destruct (livenessChecks s !! name) as [[msg|]|] eqn:E; try done.
  by specialize (Hok _ _ E).
Qed.

Lemma register_fresh_failed (k : Slot) (grpcClient : HealthClient) (s : grpcHandler) :
  registered k s = false → failed k (register k grpcClient s).2 = true.
Proof.
  intros Hfresh.
  destruct k as [name|name|name]; simpl in *;
    apply bool_decide_eq_false in Hfresh;
    rewrite <- eq_None_not_Some in Hfresh;
    unfold AddReadinessCheck, AddLivenessCheck, AddGrpcReadinessCheck;
    rewrite Hfresh; simpl; [| |destruct (Watch grpcClient); simpl];
    by rewrite lookup_insert_eq.
Qed.

(** X5: registering a fresh name in any namespace makes no call of
    [SetServingStatus], and from then on a GET on /ready is answered 503;
    for a liveness check so is a GET on /live. *)
Theorem registration_makes_unready (k : Slot) (grpcClient : HealthClient)
        (s : grpcHandler) (q : list (string * string)) :
  registered k s = false →
  grpcHealthServer (register k grpcClient s).2 = grpcHealthServer s ∧
  StatusCode (ReadyEndpoint {| Method := "GET"; Query := q |} (register k grpcClient s).2)
    = 503 ∧
  (∀ name, k = LivenessSlot name →
     StatusCode (LiveEndpoint {| Method := "GET"; Query := q |} (register k grpcClient s).2)
       = 503).
Proof.
  intros Hfresh. pose proof (register_fresh_failed k grpcClient s Hfresh) as Hf.
  split; [|split].
  - destruct k as [name|name|name]; simpl;
      unfold AddReadinessCheck, AddLivenessCheck, AddGrpcReadinessCheck;
      repeat case_match; done.
  - by apply (failed_ready_unavailable k).
  - intros name ->. by apply (failed_live_unavailable name).
Qed.

Lemma registration_makes_unready_witness :
  let s := AddReadinessCheck_func1 "db" None
             (AddReadinessCheck "db" (NewGrpcHandler NewServer)).2 in
  servingStatus s = SERVING ∧
  servingStatus (AddLivenessCheck "mem" s).2 = SERVING ∧
  StatusCode (ReadyEndpoint {| Method := "GET"; Query := [] |} (AddLivenessCheck "mem" s).2)
    = 503 ∧
  StatusCode (LiveEndpoint {| Method := "GET"; Query := [] |} (AddLivenessCheck "mem" s).2)
    = 503.
Proof.
  intros s.
  destruct (registration_makes_unready (LivenessSlot "mem")
              {| Check := λ _, (None, None); Watch := None |} s [])
    as (Hhs & Hready & Hlive); [vm_compute; reflexivity|].
  split; [vm_compute; reflexivity|]. split; [vm_compute; reflexivity|].
  split; [exact Hready | by apply (Hlive "mem")].
Defined.

(** ** package handlers: the edges of the serving status *)

Lemma failed_setServing (k : Slot) (st : Z) (s : grpcHandler) :
  failed k (setServing st s) = failed k s.
Proof. by destruct k. Qed.

Lemma passed_setServing (k : Slot) (st : Z) (s : grpcHandler) :
  passed k (setServing st s) = passed k s.
Proof. by destruct k. Qed.

(** What the recovery of a failed entry does: it stores the success, leaves
    every other entry alone, and sets SERVING when the aggregate over the
    new results is true. *)
Lemma recovery_exec (a : Slot) (s : grpcHandler) :
  failed a s = true →
  ∃ s1, failed a s1 = false ∧ passed a s1 = true ∧
        (∀ k, k ≠ a → failed k s1 = failed k s) ∧
        grpcHealthServer s1 = grpcHealthServer s ∧
        exec (recovery a) s =
          Ret (if areChecksOk s1 && areGrpcDepsOk s1 then setServing SERVING s1 else s1).
Proof.
  intros Ha. destruct a as [n|n|n]; simpl in Ha.
  - destruct (readinessChecks s !! n) as [[msg|]|] eqn:E; try done.
    exists (set_readinessChecks (<[n:=None]> (readinessChecks s)) s).
    simpl. rewrite lookup_insert_eq. repeat split.
    + intros [m|m|m] Hne; simpl; try done.
      rewrite lookup_insert_ne; [done | congruence].
    + unfold AddReadinessCheck_func1, index_err. by rewrite E.
  - destruct (livenessChecks s !! n) as [[msg|]|] eqn:E; try done.
    exists (set_livenessChecks (<[n:=None]> (livenessChecks s)) s).
    simpl. rewrite lookup_insert_eq. repeat split.
    + intros [m|m|m] Hne; simpl; try done.
      rewrite lookup_insert_ne; [done | congruence].
    + unfold AddLivenessCheck_func1, index_err. by rewrite E.
  - destruct (grpcDeps s !! n) as [[|]|] eqn:E; try done.
    exists (set_grpcDeps (<[n:=true]> (grpcDeps s)) s).
    simpl. rewrite lookup_insert_eq. repeat split.
    + intros [m|m|m] Hne; simpl; try done.
      rewrite lookup_insert_ne; [done | congruence].
    + unfold watchUpdate, index_bool. rewrite E. simpl.
      rewrite (andb_comm (areGrpcDepsOk _)). by destruct (areChecksOk _ && _).
Qed.

(** X6: when a healthy entry breaks (its check returns an error, or its
    dependency reports NOT_SERVING), the failure is stored, NOT_SERVING is
    set by exactly one call whatever the other entries hold, and a GET on
    /ready is answered 503 from then on. *)
Theorem breakdown_sets_not_serving (k : Slot) (msg : string) (s s' : grpcHandler)
        (q : list (string * string)) :
  passed k s = true →
  exec (breakdown k msg) s = Ret s' →
  failed k s' = true ∧
  servingStatus s' = NOT_SERVING ∧
  setCalls (grpcHealthServer s') = ("", NOT_SERVING) :: setCalls (grpcHealthServer s) ∧
  StatusCode (ReadyEndpoint {| Method := "GET"; Query := q |} s') = 503.
Proof.
  intros Hp Hexec.
  assert (failed k s' = true ∧ servingStatus s' = NOT_SERVING ∧
          setCalls (grpcHealthServer s') = ("", NOT_SERVING) :: setCalls (grpcHealthServer s))
    as (Hf & Hst & Hcalls).
  { destruct k as [n|n|n]; simpl in Hp, Hexec.
    - destruct (readinessChecks s !! n) as [[e|]|] eqn:E; try done.
      unfold AddReadinessCheck_func1, index_err in Hexec. rewrite E in Hexec.
      simpl in Hexec. injection Hexec as <-.
      rewrite servingStatus_setServing. simpl. by rewrite lookup_insert_eq.
    - destruct (livenessChecks s !! n) as [[e|]|] eqn:E; try done.
      unfold AddLivenessCheck_func1, index_err in Hexec. rewrite E in Hexec.
      simpl in Hexec. injection Hexec as <-.
      rewrite servingStatus_setServing. simpl. by rewrite lookup_insert_eq.
    - destruct (grpcDeps s !! n) as [[|]|] eqn:E; try done.
      unfold watchUpdate, index_bool in Hexec. rewrite E in Hexec.
      simpl in Hexec. injection Hexec as <-.
      rewrite servingStatus_setServing. simpl. by rewrite lookup_insert_eq. }
  repeat split; try done. by apply (failed_ready_unavailable k).
Qed.

Lemma breakdown_sets_not_serving_witness :
  let s := AddReadinessCheck_func1 "db" None
             (AddReadinessCheck "db" (NewGrpcHandler NewServer)).2 in
  let s' := AddReadinessCheck_func1 "db" (Some "connection refused") s in
  servingStatus s = SERVING ∧
  failed (ReadinessSlot "db") s' = true ∧
  servingStatus s' = NOT_SERVING ∧
  setCalls (grpcHealthServer s') = ("", NOT_SERVING) :: setCalls (grpcHealthServer s) ∧
  StatusCode (ReadyEndpoint {| Method := "GET"; Query := [] |} s') = 503.
Proof.
  intros s s'. split; [vm_compute; reflexivity|].
  apply (breakdown_sets_not_serving (ReadinessSlot "db") "connection refused" s s' []).
  - vm_compute. reflexivity.
  - reflexivity.
Defined.

(** X7: when the one entry that holds a failure recovers, every result is
    healthy afterwards and SERVING is set, by exactly one call. *)
Theorem sole_failure_recovery_serves (a : Slot) (s s' : grpcHandler) :
  failed a s = true →
  (∀ k, k ≠ a → failed k s = false) →
  exec (recovery a) s = Ret s' →
  allHealthy s' ∧ passed a s' = true ∧
  servingStatus s' = SERVING ∧
  setCalls (grpcHealthServer s') = ("", SERVING) :: setCalls (grpcHealthServer s).
Proof.
  intros Ha Hothers Hexec.
  destruct (recovery_exec a s Ha) as (s1 & Ha1 & Hp1 & Hframe & Hhs & Hrec).
  rewrite Hrec in Hexec. injection Hexec as <-.
  assert (allHealthy s1) as Hall.
  { apply allHealthy_no_failed. intros k.
    destruct (failed k s1) eqn:Hk; [|done].
    assert (k ≠ a) as Hne by (intros ->; by rewrite Ha1 in Hk).
    rewrite (Hframe k Hne), (Hothers k Hne) in Hk. done. }
  pose proof (proj1 (allHealthy_ok s1) Hall) as Hok. rewrite Hok.
  split; [|split; [|split]].
  - apply allHealthy_no_failed. intros k. rewrite failed_setServing.
    by apply allHealthy_no_failed.
  - by rewrite passed_setServing.
  - apply servingStatus_setServing.
  - simpl. by rewrite Hhs.
Qed.

Lemma sole_failure_recovery_serves_witness :
  let s := AddLivenessCheck_func1 "mem" None
             (AddLivenessCheck "mem" (AddReadinessCheck "db" (NewGrpcHandler NewServer)).2).2 in
  let s' := AddReadinessCheck_func1 "db" None s in
  servingStatus s = NOT_SERVING ∧
  allHealthy s' ∧ passed (ReadinessSlot "db") s' = true ∧
  servingStatus s' = SERVING ∧
  setCalls (grpcHealthServer s') = ("", SERVING) :: setCalls (grpcHealthServer s).
Proof.
  intros s s'. split; [vm_compute; reflexivity|].
  apply (sole_failure_recovery_serves (ReadinessSlot "db") s s').
  - vm_compute. reflexivity.
  - assert (readinessChecks s = {[ "db" := Some "placeholder" ]}) as Hr
      by (vm_compute; reflexivity).
    assert (livenessChecks s = {[ "mem" := None ]}) as Hl by (vm_compute; reflexivity).
    assert (grpcDeps s = ∅) as Hg by (vm_compute; reflexivity).
    intros [n|n|n] Hne; simpl; rewrite ?Hr, ?Hl, ?Hg.
    + destruct (decide (n = "db")) as [->|Hn]; [done|].
      by rewrite lookup_singleton_ne.
    + destruct (decide (n = "mem")) as [->|Hn];
        [by rewrite lookup_singleton_eq | by rewrite lookup_singleton_ne].
    + by rewrite lookup_empty.
  - reflexivity.
Defined.

(** X8: the handler sets the serving status on edges of an entry only.
    Whenever an event changes the health server, it is a run or a watch
    event of some entry that made exactly one call, and either that entry
    went from not passed to passed and SERVING was set, or the entry went
    from not failed to failed and NOT_SERVING was set. In particular a
    registration never sets the status. *)
Theorem status_set_on_edges_only (ev : Event) (s s' : grpcHandler) :
  exec ev s = Ret s' →
  grpcHealthServer s' ≠ grpcHealthServer s →
  setCalls (grpcHealthServer s') =
    ("", servingStatus s') :: setCalls (grpcHealthServer s) ∧
  ∃ k, executes ev k = true ∧
    ((servingStatus s' = SERVING ∧ passed k s = false ∧ passed k s' = true) ∨
     (servingStatus s' = NOT_SERVING ∧ failed k s = false ∧ failed k s' = true)).
Proof.
  intros Hexec Hchg.
  destruct ev as [n|n|n c|n err|n err|n [resp rerr]]; simpl in Hexec.
  - unfold AddReadinessCheck in Hexec. by repeat case_match; simplify_eq/=.
  - unfold AddLivenessCheck in Hexec. by repeat case_match; simplify_eq/=.
  - unfold AddGrpcReadinessCheck in Hexec. by repeat case_match; simplify_eq/=.
  - unfold AddReadinessCheck_func1, index_err in Hexec.
    destruct (readinessChecks s !! n) as [[msg|]|] eqn:E, err as [e|];
      simpl in Hexec; simplify_eq; try done.
    + destruct (areChecksOk _ && areGrpcDepsOk _) eqn:Hok; [|done].
      rewrite servingStatus_setServing. split; [done|].
      exists (ReadinessSlot n). simpl. rewrite String.eqb_refl, E, lookup_insert_eq.
      split; [done|]. by left.
    + rewrite servingStatus_setServing. split; [done|].
      exists (ReadinessSlot n). simpl. rewrite String.eqb_refl, E, lookup_insert_eq.
      split; [done|]. by right.
    + rewrite servingStatus_setServing. split; [done|].
      exists (ReadinessSlot n). simpl. rewrite String.eqb_refl, E, lookup_insert_eq.
      split; [done|]. by right.
  - unfold AddLivenessCheck_func1, index_err in Hexec.
    destruct (livenessChecks s !! n) as [[msg|]|] eqn:E, err as [e|];
      simpl in Hexec; simplify_eq; try done.
    + destruct (areChecksOk _ && areGrpcDepsOk _) eqn:Hok; [|done].
      rewrite servingStatus_setServing. split; [done|].
      exists (LivenessSlot n). simpl. rewrite String.eqb_refl, E, lookup_insert_eq.
      split; [done|]. by left.
    + rewrite servingStatus_setServing. split; [done|].
      exists (LivenessSlot n). simpl. rewrite String.eqb_refl, E, lookup_insert_eq.
      split; [done|]. by right.
    + rewrite servingStatus_setServing. split; [done|].
      exists (LivenessSlot n). simpl. rewrite String.eqb_refl, E, lookup_insert_eq.
      split; [done|]. by right.
  - assert (∃ r, resp = Some r ∧ watchUpdate n (Some r) s = Running s') as (r & -> & Hw).
    { unfold watchIter in Hexec. destruct rerr as [[|msg]|]; simpl in Hexec.
      - destruct resp as [r|]; [|done]. exists r. split; [done|].
        destruct (watchUpdate n (Some r) s) eqn:Hw; simplify_eq; [done|].
        unfold watchUpdate in Hw. by repeat case_match.
      - by simplify_eq.
      - destruct resp as [r|]; [|done]. exists r. split; [done|].
        destruct (watchUpdate n (Some r) s) eqn:Hw; simplify_eq; [done|].
        unfold watchUpdate in Hw. by repeat case_match. }
    clear Hexec. unfold watchUpdate, index_bool in Hw.
    destruct (Status r =? SERVING) eqn:Hs; simpl in Hw.
    + destruct (grpcDeps s !! n) as [[|]|] eqn:E; simpl in Hw.
      * apply Z.eqb_eq in Hs. rewrite Hs in Hw. simpl in Hw. by simplify_eq.
      * destruct (areGrpcDepsOk _ && areChecksOk _) eqn:Hok; simpl in Hw;
          simplify_eq; try done.
        rewrite servingStatus_setServing. split; [done|].
        exists (GrpcSlot n). simpl. rewrite String.eqb_refl, E, lookup_insert_eq.
        split; [done|]. by left.
      * destruct (areGrpcDepsOk _ && areChecksOk _) eqn:Hok; simpl in Hw;
          simplify_eq; try done.
        rewrite servingStatus_setServing. split; [done|].
        exists (GrpcSlot n). simpl. rewrite String.eqb_refl, E, lookup_insert_eq.
        split; [done|]. by left.
    + destruct (Status r =? NOT_SERVING) eqn:Hn; simpl in Hw; [|by simplify_eq].
      destruct (grpcDeps s !! n) as [[|]|] eqn:E; simpl in Hw; simplify_eq; try done.
      rewrite servingStatus_setServing. split; [done|].
      exists (GrpcSlot n). simpl. rewrite String.eqb_refl, E, lookup_insert_eq.
      split; [done|]. by right.
Qed.

Lemma status_set_on_edges_only_witness :
  let s := (AddReadinessCheck "db" (NewGrpcHandler NewServer)).2 in
  let s' := AddReadinessCheck_func1 "db" None s in
  setCalls (grpcHealthServer s') = ("", servingStatus s') :: setCalls (grpcHealthServer s) ∧
  ∃ k, executes (RunReadiness "db" None) k = true ∧
    ((servingStatus s' = SERVING ∧ passed k s = false ∧ passed k s' = true) ∨
     (servingStatus s' = NOT_SERVING ∧ failed k s = false ∧ failed k s' = true)).
Proof.
  intros s s'.
  apply (status_set_on_edges_only (RunReadiness "db" None) s s').
  - reflexivity.
  - intros Heq. apply (f_equal setCalls) in Heq. vm_compute in Heq. discriminate.
Defined.

(** X9: every event is idempotent. Once an event has been applied, applying
    the same event again (the same check result, the same received status,
    the same registration) changes nothing and makes no further call of
    [SetServingStatus]. *)
Theorem repeated_event_is_noop (ev : Event) (s s1 : grpcHandler) :
  exec ev s = Ret s1 → exec ev s1 = Ret s1.
Proof.
  intros Hexec.
  destruct ev as [n|n|n c|n err|n err|n [resp rerr]]; cbn [exec] in *.
  - unfold AddReadinessCheck in *.
    destruct (readinessChecks s !! n) eqn:E; simpl in Hexec; simplify_eq.
    + by rewrite E.
    + simpl. by rewrite lookup_insert_eq.
  - unfold AddLivenessCheck in *.
    destruct (livenessChecks s !! n) eqn:E; simpl in Hexec; simplify_eq.
    + by rewrite E.
    + simpl. by rewrite lookup_insert_eq.
  - unfold AddGrpcReadinessCheck in *.
    destruct (grpcDeps s !! n) eqn:E; simpl in Hexec.
    + simplify_eq. by rewrite E.
    + destruct (Watch c); simpl in Hexec; simplify_eq; simpl;
        by rewrite lookup_insert_eq.
  - unfold AddReadinessCheck_func1, index_err in *.
    destruct (readinessChecks s !! n) as [[msg|]|] eqn:E, err as [e|];
      simpl in Hexec; simplify_eq; simpl; rewrite ?E, ?lookup_insert_eq; try done.
    destruct (areChecksOk _ && areGrpcDepsOk _); simpl; by rewrite lookup_insert_eq.
  - unfold AddLivenessCheck_func1, index_err in *.
    destruct (livenessChecks s !! n) as [[msg|]|] eqn:E, err as [e|];
      simpl in Hexec; simplify_eq; simpl; rewrite ?E, ?lookup_insert_eq; try done.
    destruct (areChecksOk _ && areGrpcDepsOk _); simpl; by rewrite lookup_insert_eq.
  - assert (∀ r, watchUpdate n (Some r) s = Running s1 →
                 watchUpdate n (Some r) s1 = Running s1) as Hupd.
    { intros r. unfold watchUpdate, index_bool.
      destruct (Status r =? SERVING) eqn:Hs; simpl.
      - destruct (grpcDeps s !! n) as [[|]|] eqn:E; simpl.
        + apply Z.eqb_eq in Hs. rewrite Hs. simpl. intros [= <-]. by rewrite E.
        + destruct (areGrpcDepsOk _ && areChecksOk _); simpl; intros [= <-];
            simpl; rewrite lookup_insert_eq; simpl;
            apply Z.eqb_eq in Hs; by rewrite Hs.
        + destruct (areGrpcDepsOk _ && areChecksOk _); simpl; intros [= <-];
            simpl; rewrite lookup_insert_eq; simpl;
            apply Z.eqb_eq in Hs; by rewrite Hs.
      - destruct (Status r =? NOT_SERVING) eqn:Hn; simpl.
        + destruct (grpcDeps s !! n) as [[|]|] eqn:E; simpl; intros [= <-]; simpl;
            rewrite ?E, ?lookup_insert_eq; done.
        + intros [= <-]. done. }
    unfold watchIter in *. destruct rerr as [[|msg]|]; cbv beta iota zeta in *.
    + destruct resp as [r|]; [|done].
      destruct (watchUpdate n (Some r) s) as [s2|s2|s2] eqn:Hw; simplify_eq.
      * by rewrite (Hupd r Hw).
      * unfold watchUpdate in Hw. by repeat case_match.
    + by simplify_eq.
    + destruct resp as [r|]; [|done].
      destruct (watchUpdate n (Some r) s) as [s2|s2|s2] eqn:Hw; simplify_eq.
      * by rewrite (Hupd r Hw).
      * unfold watchUpdate in Hw. by repeat case_match.
Qed.

Lemma repeated_event_is_noop_witness :
  let s := AddReadinessCheck_func1 "db" None
             (AddReadinessCheck "db" (NewGrpcHandler NewServer)).2 in
  let s1 := AddReadinessCheck_func1 "db" (Some "connection refused") s in
  servingStatus s = SERVING ∧ servingStatus s1 = NOT_SERVING ∧
  exec (RunReadiness "db" (Some "connection refused")) s1 = Ret s1.
Proof.
  intros s s1. split; [vm_compute; reflexivity|]. split; [vm_compute; reflexivity|].
  apply (repeated_event_is_noop (RunReadiness "db" (Some "connection refused")) s s1).
  reflexivity.
Defined.

Lemma exec_keeps_not_serving (ev : Event) (s s' : grpcHandler) :
  bringsSuccess ev = false →
  servingStatus s = NOT_SERVING → exec ev s = Ret s' → servingStatus s' = NOT_SERVING.
Proof.
  intros Hno Hs Hexec.
  destruct ev as [n|n|n c|n err|n err|n [resp rerr]]; simpl in *.
  - unfold AddReadinessCheck in Hexec. by repeat case_match; simplify_eq/=.
  - unfold AddLivenessCheck in Hexec. by repeat case_match; simplify_eq/=.
  - unfold AddGrpcReadinessCheck in Hexec. by repeat case_match; simplify_eq/=.
  - destruct err as [e|]; [|done]. unfold AddReadinessCheck_func1 in Hexec.
    destruct (index_err _ _); simplify_eq; [done|].
    apply servingStatus_setServing.
  - destruct err as [e|]; [|done]. unfold AddLivenessCheck_func1 in Hexec.
    destruct (index_err _ _); simplify_eq; [done|].
    apply servingStatus_setServing.
  - destruct resp as [r|].
    + unfold watchIter, watchUpdate in Hexec. rewrite Hno in Hexec. simpl in Hexec.
      destruct rerr as [[|msg]|]; simpl in Hexec;
        repeat case_match; simplify_eq; try done; apply servingStatus_setServing.
    + unfold watchIter, watchUpdate in Hexec.
      destruct rerr as [[|msg]|]; by simplify_eq.
Qed.

(** X10: SERVING is never set without a success. From a new handler, a
    sequence of events in which no check returns nil and no response reports
    SERVING (registrations, failing runs, other statuses, stream errors)
    leaves the flag at NOT_SERVING; a handler without checks therefore
    never reads SERVING. *)
Theorem no_success_no_serving (hs : Server) (evs : list Event) (s : grpcHandler) :
  Forall (λ ev, bringsSuccess ev = false) evs →
  run evs (NewGrpcHandler hs) = Ret s →
  servingStatus s = NOT_SERVING.
Proof.
  intros Hevs.
  assert (servingStatus (NewGrpcHandler hs) = NOT_SERVING) as Hinit.
  { unfold servingStatus, NewGrpcHandler. simpl. by rewrite lookup_insert_eq. }
  revert Hinit. generalize (NewGrpcHandler hs) as s0.
  induction Hevs as [|ev evs Hev _ IH]; intros s0 Hs0 Hrun; simpl in Hrun.
  - by simplify_eq.
  - destruct (enabled ev s0); [|done].
    destruct (exec ev s0) as [s1|] eqn:Hexec; [|done].
    apply (IH s1); [|done]. by eapply exec_keeps_not_serving.
Qed.

Lemma no_success_no_serving_witness :
  let grpcClient := {| Check := λ _, (None, None); Watch := None |} in
  let evs := [RegisterReadiness "db"; RunReadiness "db" (Some "connection refused");
              RegisterGrpc "auth" grpcClient; WatchRecv "auth" (received UNKNOWN);
              WatchRecv "auth" (received NOT_SERVING)] in
  ∃ s, run evs (NewGrpcHandler NewServer) = Ret s ∧ servingStatus s = NOT_SERVING.
Proof.
  intros grpcClient evs.
  destruct (run evs (NewGrpcHandler NewServer)) as [s|] eqn:Hrun;
    [|vm_compute in Hrun; discriminate].
  exists s. split; [reflexivity|].
  apply (no_success_no_serving NewServer evs s); [|exact Hrun].
  repeat constructor.
Defined.

(** ** package handlers: the watch goroutine *)

(** X11: a response whose status is neither SERVING nor NOT_SERVING
    (UNKNOWN, SERVICE_UNKNOWN, any other number) is skipped by the watch
    goroutine: nothing is stored, no status is set, the loop goes on. *)
Theorem watch_ignores_other_statuses (name : string) (r : HealthCheckResponse)
        (s : grpcHandler) :
  Status r ≠ SERVING → Status r ≠ NOT_SERVING →
  watchIter name (Some r, None) s = Running s.
Proof.
  intros Hs Hn. apply Z.eqb_neq in Hs, Hn.
  unfold watchIter, watchUpdate. by rewrite Hs, Hn.
Qed.

Lemma watch_ignores_other_statuses_witness :
  let s := (AddGrpcReadinessCheck "auth" {| Check := λ _, (None, None); Watch := None |}
              (NewGrpcHandler NewServer)).2 in
  watchIter "auth" (Some {| Status := UNKNOWN |}, None) s = Running s.
Proof.
  intros s. apply watch_ignores_other_statuses; discriminate.
Defined.

Lemma watchUpdate_flag (name : string) (r : HealthCheckResponse) (s : grpcHandler) :
  ∃ s', watchUpdate name (Some r) s = Running s' ∧
        index_bool (grpcDeps s') name =
          lastFlag (index_bool (grpcDeps s) name) [Status r] ∧
        (∀ other, other ≠ name → grpcDeps s' !! other = grpcDeps s !! other) ∧
        readinessChecks s' = readinessChecks s ∧ livenessChecks s' = livenessChecks s.
Proof.
  unfold watchUpdate, lastFlag. simpl.
  destruct (Status r =? SERVING) eqn:Hs; simpl.
  - destruct (index_bool (grpcDeps s) name) eqn:Hi; simpl.
    + apply Z.eqb_eq in Hs. rewrite Hs. simpl. exists s. by rewrite Hi.
    + destruct (negb _); eexists; (split; [reflexivity|]); simpl;
        unfold index_bool; rewrite lookup_insert_eq;
        (repeat split; try done); intros other Hne; by rewrite lookup_insert_ne.
  - destruct (Status r =? NOT_SERVING) eqn:Hn; simpl.
    + destruct (index_bool (grpcDeps s) name) eqn:Hi; simpl.
      * eexists; (split; [reflexivity|]); simpl.
        unfold index_bool; rewrite lookup_insert_eq.
        (repeat split; try done); intros other Hne; by rewrite lookup_insert_ne.
      * exists s. by rewrite Hi.
    + by exists s.
Qed.

(** X12: over a stream that delivers responses without error, the watch
    goroutine keeps running, and the dependency's flag afterwards is what
    the last SERVING or NOT_SERVING among them says (the previous value when
    there was none); no other dependency and no check result is touched. If
    the stream then fails with a transport error, the goroutine returns in
    exactly that state and reads no further. *)
Theorem watch_tracks_last_status (name : string) (statuses : list Z) (s : grpcHandler)
        (resp : option HealthCheckResponse) (msg : string) (rest : list RecvResult) :
  ∃ s', AddGrpcReadinessCheck_func1 name (received <$> statuses) s = Running s' ∧
        AddGrpcReadinessCheck_func1 name
          ((received <$> statuses) ++ (resp, Some (RecvFailed msg)) :: rest) s
          = Returned s' ∧
        index_bool (grpcDeps s') name = lastFlag (index_bool (grpcDeps s) name) statuses ∧
        (∀ other, other ≠ name → grpcDeps s' !! other = grpcDeps s !! other) ∧
        readinessChecks s' = readinessChecks s ∧ livenessChecks s' = livenessChecks s.
Proof.
  revert s. induction statuses as [|st statuses IH]; intros s.
  - exists s. by repeat split.
  - destruct (watchUpdate_flag name {| Status := st |} s)
      as (s1 & Hw & Hflag & Hother & Hr & Hl).
    destruct (IH s1) as (s' & Hrun & Hret & Hflag' & Hother' & Hr' & Hl').
    exists s'. cbn [fmap list_fmap app AddGrpcReadinessCheck_func1].
    unfold received at 1 3. unfold watchIter. rewrite Hw.
    split; [exact Hrun|]. split; [exact Hret|].
    split; [|split; [|split]].
    + rewrite Hflag'. rewrite Hflag. reflexivity.
    + intros other Hne. by rewrite Hother', Hother.
    + by rewrite Hr'.
    + by rewrite Hl'.
Qed.

(** The dependency "auth" after SERVING, UNKNOWN, NOT_SERVING and again
    UNKNOWN: down. *)
Lemma watch_tracks_last_status_witness :
  let s := (AddGrpcReadinessCheck "auth" {| Check := λ _, (None, None); Watch := None |}
              (NewGrpcHandler NewServer)).2 in
  ∃ s', AddGrpcReadinessCheck_func1 "auth"
          (received <$> [SERVING; UNKNOWN; NOT_SERVING; UNKNOWN]) s = Running s' ∧
        index_bool (grpcDeps s') "auth" = false.
Proof.
  intros s.
  destruct (watch_tracks_last_status "auth" [SERVING; UNKNOWN; NOT_SERVING; UNKNOWN] s
              None "reset" []) as (s' & Hrun & _ & Hflag & _).
  exists s'. split; [exact Hrun|]. rewrite Hflag. reflexivity.
Defined.

(** ** package handlers: what the events never do *)

(** X13: the registered names change by registration only. After an enabled
    event an entry is registered exactly if it was registered before or the
    event is its registration call (also a gRPC registration whose [Watch]
    fails); nothing ever removes a name, and a run or a watch event adds
    none. *)
Theorem names_change_by_registration_only (ev : Event) (k : Slot) (s s' : grpcHandler) :
  enabled ev s = true → exec ev s = Ret s' →
  registered k s' = registered k s || registers ev k.
Proof.
  intros Hen Hexec.
  assert (∀ (A : Type) (m : gmap string A) n v name,
            bool_decide (is_Some (<[n:=v]> m !! name)) =
            bool_decide (is_Some (m !! name)) || String.eqb n name) as Hins.
  { intros A m n v name. destruct (String.eqb_spec n name) as [->|Hne].
    - rewrite lookup_insert_eq, orb_true_r. by apply bool_decide_eq_true.
    - by rewrite lookup_insert_ne, orb_false_r. }
  assert (∀ (A : Type) (m : gmap string A) n v name, is_Some (m !! n) →
            bool_decide (is_Some (<[n:=v]> m !! name)) =
            bool_decide (is_Some (m !! name))) as Hupd.
  { intros A m n v name Hn. rewrite Hins.
    destruct (String.eqb_spec n name) as [->|Hne]; [|apply orb_false_r].
    rewrite orb_true_r. symmetry. by apply bool_decide_eq_true. }
  assert (∀ (A : Type) (m : gmap string A) n name, is_Some (m !! n) →
            bool_decide (is_Some (m !! name)) =
            bool_decide (is_Some (m !! name)) || String.eqb n name) as Hdup.
  { intros A m n name Hn.
    destruct (String.eqb_spec n name) as [->|Hne]; [|by rewrite orb_false_r].
    rewrite orb_true_r. by apply bool_decide_eq_true. }
  destruct ev as [n|n|n c|n err|n err|n [resp rerr]]; cbn [exec enabled] in *.
  - unfold AddReadinessCheck in Hexec.
    destruct (readinessChecks s !! n) eqn:E; simpl in Hexec; simplify_eq;
      destruct k as [name|name|name]; simpl; rewrite ?orb_false_r;
      first [done | apply Hins | apply Hdup; by rewrite E].
  - unfold AddLivenessCheck in Hexec.
    destruct (livenessChecks s !! n) eqn:E; simpl in Hexec; simplify_eq;
      destruct k as [name|name|name]; simpl; rewrite ?orb_false_r;
      first [done | apply Hins | apply Hdup; by rewrite E].
  - unfold AddGrpcReadinessCheck in Hexec.
    destruct (grpcDeps s !! n) eqn:E; simpl in Hexec;
      [|destruct (Watch c); simpl in Hexec]; simplify_eq;
      destruct k as [name|name|name]; simpl; rewrite ?orb_false_r;
      first [done | apply Hins | apply Hdup; by rewrite E].
  - apply bool_decide_eq_true in Hen. unfold AddReadinessCheck_func1 in Hexec.
    replace (registers (RunReadiness n err) k) with false by (by destruct k).
    rewrite orb_false_r.
    repeat case_match; simplify_eq; destruct k as [name|name|name]; simpl; try done;
      by apply Hupd.
  - apply bool_decide_eq_true in Hen. unfold AddLivenessCheck_func1 in Hexec.
    replace (registers (RunLiveness n err) k) with false by (by destruct k).
    rewrite orb_false_r.
    repeat case_match; simplify_eq; destruct k as [name|name|name]; simpl; try done;
      by apply Hupd.
  - apply bool_decide_eq_true in Hen. unfold watchIter, watchUpdate in Hexec.
    replace (registers (WatchRecv n (resp, rerr)) k) with false by (by destruct k).
    rewrite orb_false_r.
    repeat case_match; simplify_eq; destruct k as [name|name|name]; simpl; try done;
      by apply Hupd.
Qed.

Lemma names_change_by_registration_only_witness :
  let grpcClient := {| Check := λ _, (None, None); Watch := Some "unavailable" |} in
  let s := (AddReadinessCheck "db" (NewGrpcHandler NewServer)).2 in
  registered (GrpcSlot "auth") (AddGrpcReadinessCheck "auth" grpcClient s).2 = true ∧
  registered (GrpcSlot "auth") (AddReadinessCheck_func1 "db" None s) = false.
Proof.
  intros grpcClient s. split.
  - rewrite (names_change_by_registration_only (RegisterGrpc "auth" grpcClient)
               (GrpcSlot "auth") s (AddGrpcReadinessCheck "auth" grpcClient s).2);
      reflexivity.
  - rewrite (names_change_by_registration_only (RunReadiness "db" None)
               (GrpcSlot "auth") s (AddReadinessCheck_func1 "db" None s));
      reflexivity.
Defined.

(** An event leaves the health server alone or makes one call, for the
    service [""] and with SERVING or NOT_SERVING. *)
Lemma exec_server (ev : Event) (s s' : grpcHandler) :
  exec ev s = Ret s' →
  grpcHealthServer s' = grpcHealthServer s ∨
  ∃ st, (st = SERVING ∨ st = NOT_SERVING) ∧
        grpcHealthServer s' = SetServingStatus "" st (grpcHealthServer s).
Proof.
  intros Hexec.
  destruct ev as [n|n|n c|n err|n err|n [resp rerr]]; cbn [exec] in Hexec;
    unfold AddReadinessCheck, AddLivenessCheck, AddGrpcReadinessCheck,
      AddReadinessCheck_func1, AddLivenessCheck_func1, watchIter, watchUpdate in Hexec;
    repeat case_match; simplify_eq; simpl; eauto.
Qed.

(** X14: whatever the events, the handler calls [SetServingStatus] for the
    service [""] only and with SERVING or NOT_SERVING only; the entries of
    the health server for other services are never touched. *)
Theorem handler_calls_only (evs : list Event) (s s' : grpcHandler) :
  run evs s = Ret s' →
  (∃ calls, setCalls (grpcHealthServer s') = calls ++ setCalls (grpcHealthServer s) ∧
            Forall handlerCall calls) ∧
  (∀ service, service ≠ "" →
     statusMap (grpcHealthServer s') !! service = statusMap (grpcHealthServer s) !! service).
Proof.
  revert s. induction evs as [|ev evs IH]; intros s Hrun; simpl in Hrun.
  - simplify_eq. split; [by exists [] | done].
  - destruct (enabled ev s); [|done].
    destruct (exec ev s) as [s1|] eqn:Hexec; [|done].
    destruct (IH s1 Hrun) as ((calls & Hcalls & Hall) & Hother).
    destruct (exec_server ev s s1 Hexec) as [Heq|(st & Hst & Heq)]; rewrite Heq in *.
    + split; [by exists calls | done].
    + split.
      * exists (calls ++ [("", st)]). rewrite <- app_assoc. split; [done|].
        apply Forall_app. split; [done|]. constructor; [|done].
        destruct Hst as [->| ->]; [by left | by right].
      * intros service Hne. rewrite Hother by done. simpl.
        by rewrite lookup_insert_ne.
Qed.

Lemma handler_calls_only_witness :
  let hs := SetServingStatus "billing" SERVING NewServer in
  let evs := [RegisterReadiness "db"; RunReadiness "db" None;
              RunReadiness "db" (Some "connection refused")] in
  ∃ s', run evs (NewGrpcHandler hs) = Ret s' ∧
        setCalls (grpcHealthServer s') =
          [("", NOT_SERVING); ("", SERVING)] ++ setCalls (grpcHealthServer (NewGrpcHandler hs)) ∧
        statusMap (grpcHealthServer s') !! "billing" = Some SERVING.
Proof.
  intros hs evs.
  destruct (run evs (NewGrpcHandler hs)) as [s'|] eqn:Hrun;
    [|vm_compute in Hrun; discriminate].
  exists s'. split; [reflexivity|].
  destruct (handler_calls_only evs (NewGrpcHandler hs) s' Hrun) as (_ & Hother).
  split.
  - vm_compute in Hrun. injection Hrun as <-. reflexivity.
  - rewrite (Hother "billing"); [reflexivity | discriminate].
Defined.

(** X15: in every reachable state the flag reads SERVING or NOT_SERVING,
    whatever the health server held when the handler was made. *)
Theorem reachable_status_binary (s : grpcHandler) :
  reachable s → servingStatus s = SERVING ∨ servingStatus s = NOT_SERVING.
Proof.
  induction 1 as [hs|s ev s' Hs IH Hen Hexec].
  - right. unfold servingStatus, NewGrpcHandler. simpl. by rewrite lookup_insert_eq.
  - destruct (exec_server ev s s' Hexec) as [Heq|(st & Hst & Heq)];
      unfold servingStatus in *; rewrite Heq; [done|].
    simpl. by rewrite lookup_insert_eq.
Qed.

Lemma reachable_status_binary_witness :
  let s := (AddReadinessCheck "db"
              (NewGrpcHandler (SetServingStatus "" SERVICE_UNKNOWN NewServer))).2 in
  servingStatus s = SERVING ∨ servingStatus s = NOT_SERVING.
Proof.
  intros s. apply reachable_status_binary.
  apply (reachable_step (NewGrpcHandler (SetServingStatus "" SERVICE_UNKNOWN NewServer))
           (RegisterReadiness "db")); [apply reachable_new | reflexivity | reflexivity].
Defined.

(** ** package handlers: more on the endpoints *)

(** X16: every liveness check is also a readiness check. When a GET on
    /ready is answered 200, so is a GET on /live; when /live answers 503,
    so does /ready. *)
Theorem ready_ok_implies_live_ok (q q' : list (string * string)) (s : grpcHandler) :
  (StatusCode (ReadyEndpoint {| Method := "GET"; Query := q |} s) = 200 →
   StatusCode (LiveEndpoint {| Method := "GET"; Query := q' |} s) = 200) ∧
  (StatusCode (LiveEndpoint {| Method := "GET"; Query := q' |} s) = 503 →
   StatusCode (ReadyEndpoint {| Method := "GET"; Query := q |} s) = 503).
Proof.
  destruct (ReadyEndpoint_GET {| Method := "GET"; Query := q |} s eq_refl)
    as (results & -> & _).
  rewrite LiveEndpoint_GET by done. rewrite !writeResponse_StatusCode.
  destruct (allNil (livenessChecks s)), (allNil (readinessChecks s)), (areGrpcDepsOk s);
    simpl; by split.
Qed.

Lemma ready_ok_implies_live_ok_witness :
  let s := AddReadinessCheck_func1 "db" None
             (AddReadinessCheck "db"
                (AddLivenessCheck "mem" (NewGrpcHandler NewServer)).2).2 in
  StatusCode (LiveEndpoint {| Method := "GET"; Query := [] |} s) = 503 ∧
  StatusCode (ReadyEndpoint {| Method := "GET"; Query := [("full", "1")] |} s) = 503.
Proof.
  intros s.
  assert (StatusCode (LiveEndpoint {| Method := "GET"; Query := [] |} s) = 503) as Hlive
    by (vm_compute; reflexivity).
  split; [exact Hlive|].
  by apply (proj2 (ready_ok_implies_live_ok [("full", "1")] [] s)).
Defined.

(** X17: when every liveness and every readiness result is nil, a GET on
    /ready with [full=1] answers 200 or 503 by the gRPC dependencies alone,
    and encodes one entry per registered name: a dependency's name reads
    "OK" or "grpc service is down", also when a check has the same name; the
    name of a check that is no dependency reads "OK"; no other key
    appears. *)
Theorem ready_full_when_checks_pass (r : Request) (s : grpcHandler) :
  Method r = "GET" → Get (Query r) "full" = "1" →
  livenessHealthy s →
  (∀ name e, readinessChecks s !! name = Some e → e = None) →
  ∃ results : gmap string string,
    ReadyEndpoint r s =
      {| StatusCode := if areGrpcDepsOk s then 200 else 503;
         ContentType := "application/json; charset=utf-8";
         body := Encoded results |} ∧
    ∀ k : string, results !! k =
         match grpcDeps s !! k with
         | Some b => Some (depText b)
         | None =>
             match readinessChecks s !! k, livenessChecks s !! k with
             | None, None => None
             | _, _ => Some "OK"
             end
         end.
Proof.
  intros HGET Hfull Hlive Hready.
  apply livenessHealthy_true in Hlive.
  pose proof (proj2 (allNil_true (readinessChecks s)) Hready) as Hr.
  unfold ReadyEndpoint. rewrite HGET. cbv zeta.
  change (negb ("GET" =? "GET")%string) with false. cbv iota.
  rewrite (andAlso_true (true, ∅)) by done.
  unfold livenessOkWithResults, readinessOkWithResults. simpl snd.
  rewrite (andAlso_true (okWithResults (livenessChecks s) ∅))
    by (by rewrite okWithResults_ok).
  rewrite (andAlso_true (okWithResults (readinessChecks s) _))
    by (by rewrite okWithResults_ok).
  rewrite grpcDepsOkWithResults_ok.
  apply String.eqb_eq in Hfull. unfold writeResponse. rewrite Hfull. simpl.
  eexists. split.
  - by destruct (areGrpcDepsOk s).
  - intros k. rewrite grpcDepsOkWithResults_lookup, !okWithResults_lookup, lookup_empty.
    destruct (grpcDeps s !! k) as [b|]; [done|].
    destruct (readinessChecks s !! k) as [e|] eqn:Er.
    + by rewrite (Hready _ _ Er).
    + destruct (livenessChecks s !! k) as [e|] eqn:El; [|done].
      apply allNil_true in Hlive. by rewrite (Hlive _ _ El).
Qed.

Lemma ready_full_when_checks_pass_witness :
  let s := AddReadinessCheck_func1 "auth" None
             (AddReadinessCheck "auth"
                (AddGrpcReadinessCheck "auth" {| Check := λ _, (None, None); Watch := None |}
                   (NewGrpcHandler NewServer)).2).2 in
  ∃ results,
    ReadyEndpoint {| Method := "GET"; Query := [("full", "1")] |} s =
      {| StatusCode := 503; ContentType := "application/json; charset=utf-8";
         body := Encoded results |} ∧
    results !! "auth" = Some "grpc service is down".
Proof.
  intros s.
  destruct (ready_full_when_checks_pass {| Method := "GET"; Query := [("full", "1")] |} s)
    as (results & Hresp & Hkeys); [reflexivity | reflexivity | | |].
  - intros name e. replace (livenessChecks s) with (∅ : gmap string error)
      by (vm_compute; reflexivity). by rewrite lookup_empty.
  - intros name e. replace (readinessChecks s) with ({[ "auth" := None ]} : gmap string error)
      by (vm_compute; reflexivity).
    intros [_ <-]%lookup_singleton_Some. done.
  - exists results. split; [exact Hresp|]. rewrite Hkeys. reflexivity.
Defined.

(** X18: when [grpcClient.Watch] fails for a fresh name, the registration
    returns that error, yet the name stays registered with its flag down
    and no goroutine to raise it: a second registration of the name is
    refused as a duplicate, and a GET on /ready is answered 503. *)
Theorem failed_watch_leaves_name_registered (name err : string)
        (grpcClient : HealthClient) (s : grpcHandler) :
  grpcDeps s !! name = None → Watch grpcClient = Some err →
  ∃ s', AddGrpcReadinessCheck name grpcClient s = (Some err, s') ∧
        grpcDeps s' !! name = Some false ∧
        (∀ grpcClient', AddGrpcReadinessCheck name grpcClient' s' =
           (Some ("grpc readiness check '" +:+ name +:+ "' already exists"), s')) ∧
        (∀ q, StatusCode (ReadyEndpoint {| Method := "GET"; Query := q |} s') = 503).
Proof.
  intros Hfresh Hwatch. unfold AddGrpcReadinessCheck at 1. rewrite Hfresh, Hwatch.
  eexists. split; [reflexivity|].
  assert (grpcDeps (set_grpcDeps (<[name:=false]> (grpcDeps s)) s) !! name = Some false)
    as Hdown by (simpl; by rewrite lookup_insert_eq).
  split; [exact Hdown|]. split.
  - intros grpcClient'. unfold AddGrpcReadinessCheck. by rewrite Hdown.
  - intros q. apply (failed_ready_unavailable (GrpcSlot name)). simpl.
    by rewrite lookup_insert_eq.
Qed.

Lemma failed_watch_leaves_name_registered_witness :
  let grpcClient := {| Check := λ _, (None, None); Watch := Some "connection refused" |} in
  ∃ s', AddGrpcReadinessCheck "auth" grpcClient (NewGrpcHandler NewServer) =
          (Some "connection refused", s') ∧
        grpcDeps s' !! "auth" = Some false ∧
        StatusCode (ReadyEndpoint {| Method := "GET"; Query := [] |} s') = 503.
Proof.
  intros grpcClient.
  destruct (failed_watch_leaves_name_registered "auth" "connection refused" grpcClient
              (NewGrpcHandler NewServer)) as (s' & Hreg & Hdown & _ & Hready);
    [reflexivity | reflexivity |].
  exists s'. split; [exact Hreg|]. split; [exact Hdown | apply Hready].
Defined.
